(** * build_quality_check.py: the Rollbar build-quality gate

    A shallow embedding of [CheckBuildStatus] (src/build_quality_check.py)
    and the properties of its validation, retrying fetch, totals, status
    calculation and multi-check loop.

    Python values are modelled by [pyval], exceptions by [exn], and the
    effects of the program (HTTP requests, sleeps, log lines, the mutable
    attribute [self.item_totals]) by a state-and-exception monad [M] in
    which the state survives a raised exception, as it does in Python. *)

From Stdlib Require Import ZArith List String Ascii Bool Lia.
From Stdlib Require Import Floats.SpecFloat DecimalString.
Import ListNotations.
Local Open Scope string_scope.
Local Open Scope list_scope.
Local Open Scope Z_scope.

(* ===================================================================== *)
(** ** Python values and exceptions *)
(* ===================================================================== *)

(** The exceptions that the program raises or that the operations it uses
    can raise, all subclasses of [Exception].  [CheckBuildException] is
    declared by the source (line 10); [RequestException] stands for
    whatever [requests.get] raises; the others are built in. *)
Inductive exn : Type :=
| CheckBuildException (msg : string)
| ValueError (msg : string)
| JSONDecodeError
| KeyError (key : string)
| TypeError
| OverflowError
| AttributeError
| RequestException.

(** [except CheckBuildException] matches by class. *)
Definition is_CheckBuildException (e : exn) : bool :=
  match e with
  | CheckBuildException _ => true
  | _ => false
  end.

Inductive result (A : Type) : Type :=
| Ok (a : A)
| Raise (e : exn).
Arguments Ok {A} a.
Arguments Raise {A} e.

(** What [json.loads] can return: [None], [bool], [int], [float], [str],
    [list] and [dict] with string keys.  A dict is an association list read
    by its first matching key.  A float is an IEEE-754 binary64 number. *)
#[warnings="-register-all"]
Inductive pyval : Type :=
| PNone
| PBool (b : bool)
| PInt (z : Z)
| PFloat (f : spec_float)
| PStr (s : string)
| PList (l : list pyval)
| PDict (d : list (string * pyval)).

Fixpoint dict_get (d : list (string * pyval)) (key : string) : option pyval :=
  match d with
  | [] => None
  | (k, v) :: d' => if String.eqb k key then Some v else dict_get d' key
  end.

(** [v[key]] for a string [key]: a dict looks the key up and raises
    [KeyError] when it is absent; a list or a string refuses a string index
    and the other values are not subscriptable, all with [TypeError]. *)
Definition py_getitem (v : pyval) (key : string) : result pyval :=
  match v with
  | PDict d =>
      match dict_get d key with
      | Some x => Ok x
      | None => Raise (KeyError key)
      end
  | _ => Raise TypeError
  end.

Definition prec : Z := 53.
Definition emax : Z := 1024.

(** [float(z)] as [int + float] performs it: correctly rounded (to nearest,
    ties to even), [OverflowError] when the result is out of range. *)
Definition float_of_int (z : Z) : result spec_float :=
  match binary_normalize prec emax z 0 false with
  | S754_infinity _ => Raise OverflowError
  | f => Ok f
  end.

(** [bool] is a subclass of [int]: [True] is 1 and [False] is 0. *)
Definition as_int (v : pyval) : option Z :=
  match v with
  | PInt z => Some z
  | PBool b => Some (if b then 1 else 0)
  | _ => None
  end.

(** [a + b]. *)
Definition py_add (a b : pyval) : result pyval :=
  match a, b with
  | PFloat x, PFloat y => Ok (PFloat (SFadd prec emax x y))
  | PFloat x, _ =>
      match as_int b with
      | Some z =>
          match float_of_int z with
          | Ok y => Ok (PFloat (SFadd prec emax x y))
          | Raise e => Raise e
          end
      | None => Raise TypeError
      end
  | _, PFloat y =>
      match as_int a with
      | Some z =>
          match float_of_int z with
          | Ok x => Ok (PFloat (SFadd prec emax x y))
          | Raise e => Raise e
          end
      | None => Raise TypeError
      end
  | PStr s, PStr t => Ok (PStr (s ++ t))
  | PList l, PList m => Ok (PList (l ++ m))
  | _, _ =>
      match as_int a, as_int b with
      | Some x, Some y => Ok (PInt (x + y))
      | _, _ => Raise TypeError
      end
  end.

(** The exact comparison [f > z] of a float with an int: a NaN compares
    false, an infinity by its sign, a finite [(-1)^s * m * 2^e] by value. *)
Definition float_gt_int (f : spec_float) (z : Z) : bool :=
  match f with
  | S754_nan => false
  | S754_infinity s => negb s
  | S754_zero _ => 0 >? z
  | S754_finite s m e =>
      let v := cond_Zopp s (Zpos m) in
      if 0 <=? e then v * 2 ^ e >? z else v >? z * 2 ^ (- e)
  end.

(** [v > z] for an int [z]: numbers compare, anything else raises
    [TypeError] ('>' not supported between instances of ...). *)
Definition py_gt_int (v : pyval) (z : Z) : result bool :=
  match v with
  | PFloat f => Ok (float_gt_int f z)
  | _ =>
      match as_int v with
      | Some x => Ok (x >? z)
      | None => Raise TypeError
      end
  end.

(* ===================================================================== *)
(** ** Strings given on the command line *)
(* ===================================================================== *)

(** A Python [str] is a sequence of Unicode code points; [len] counts them. *)
Definition pystr : Type := list N.

Definition py (s : string) : pystr := map N_of_ascii (list_ascii_of_string s).

Definition len (s : pystr) : Z := Z.of_nat (List.length s).

(** [s.replace(c, '')] for a one-character [c]: every occurrence goes. *)
Definition replace (c : string) (s : pystr) : pystr :=
  filter (fun x => negb (existsb (N.eqb x) (py c))) s.

(** ASCII letters and digits. *)
Definition ascii_isalnum (c : N) : bool :=
  ((48 <=? c) && (c <=? 57) || (65 <=? c) && (c <=? 90)
   || (97 <=? c) && (c <=? 122))%N.

Section Unicode.

(** [str.isalnum] consults the Unicode character database for the code
    points beyond ASCII; that table is the parameter [unicode_isalnum]. *)
Variable unicode_isalnum : N -> bool.

Definition char_isalnum (c : N) : bool :=
  if (c <? 128)%N then ascii_isalnum c else unicode_isalnum c.

(** [s.isalnum()]: at least one character, all of them alphanumeric. *)
Definition isalnum (s : pystr) : bool :=
  match s with
  | [] => false
  | _ => forallb char_isalnum s
  end.

(** [CheckBuildStatus.validate_input] (lines 61-105).  The arguments are
    typed, so every [isinstance] test is true and is left out. *)
Definition validate_input (access_token code_version environment : pystr)
    (item_threshold num_checks check_seconds : Z) : result unit :=
  let is_alpha_num := isalnum access_token in
  let str_len := len access_token in
  if negb is_alpha_num || negb (str_len =? 32) then
    Raise (ValueError "The access_token argument is not valid")
  else
  let str_len := len code_version in
  if 200 <? str_len then
    Raise (ValueError "The code_version argument is not valid")
  else
  let environment := replace "." environment in
  let environment := replace "-" environment in
  let environment := replace "_" environment in
  let is_alpha_num := isalnum environment in
  let str_len := len environment in
  if negb is_alpha_num || (200 <? str_len) then
    Raise (ValueError "The environment argument is not valid")
  else
  if item_threshold <? 0 then
    Raise (ValueError "The item_threshold argument is not valid")
  else
  if num_checks <? 1 then
    Raise (ValueError "The num_checks argument is not valid")
  else
  if check_seconds <? 1 then
    Raise (ValueError "The check_seconds argument is not valid")
  else Ok tt.

End Unicode.

(* ===================================================================== *)
(** ** The world: HTTP layer, observable events, mutable state *)
(* ===================================================================== *)

(** The text of a response.  The program reads it only through
    [json.loads], so a text is represented by what [json.loads] makes of it:
    [Malformed] when it raises [JSONDecodeError], [Document v] when it
    returns [v]. *)
Inductive body : Type :=
| Malformed
| Document (v : pyval).

Definition json_loads (web_resp_text : body) : result pyval :=
  match web_resp_text with
  | Malformed => Raise JSONDecodeError
  | Document v => Ok v
  end.

(** The two attributes of [requests.Response] the program reads. *)
Record Response : Type := { status_code : Z; text : body }.

(** [bool(resp)] is [resp.ok]: false for the 4xx and 5xx status codes. *)
Definition ok (r : Response) : bool :=
  negb ((400 <=? status_code r) && (status_code r <? 600)).

(** One call of [requests.get]: a response, or a raised network-level
    exception (connection error, timeout, ...). *)
Inductive http_outcome : Type :=
| Responds (r : Response)
| Fails.

(** The dictionary [item_totals] with its four fixed keys. *)
Record ItemTotals : Type :=
  { new : pyval; reactivated : pyval; repeated : pyval; resolved : pyval }.

(** What a run does to the outside, in order. *)
Inductive event : Type :=
| LogInit                                         (* log_init_info *)
| LogCheck (current_check num_checks : Z)          (* log_check_info *)
| HttpGet (code_version environment access_token : pystr)
| LogError (msg : string)                          (* logging.error *)
| PrintUrl
| PrintText (t : body)
| PrintStatusCode (sc : Z)
| Sleep (secs : Z)                                 (* time.sleep *)
| LogTotals (t : ItemTotals)                       (* log_item_totals_info *)
| LogStatus (status : Z).                          (* log_status *)

(** [calls] counts the calls of [requests.get] so far, [trace] lists the
    events so far (oldest first) and [item_totals] is the attribute
    [self.item_totals] ([None] until the first totals are stored). *)
Record state : Type :=
  { calls : nat; trace : list event; item_totals : option ItemTotals }.

Definition initial : state :=
  {| calls := 0; trace := []; item_totals := None |}.

(** Computations that read and change the state and may raise. *)
Definition M (A : Type) : Type := state -> result A * state.

Definition ret {A : Type} (a : A) : M A := fun st => (Ok a, st).

Definition bind {A B : Type} (c : M A) (k : A -> M B) : M B :=
  fun st =>
    match c st with
    | (Ok a, st') => k a st'
    | (Raise e, st') => (Raise e, st')
    end.

Definition raise {A : Type} (e : exn) : M A := fun st => (Raise e, st).

Definition lift {A : Type} (r : result A) : M A := fun st => (r, st).

Definition emit (ev : event) : M unit :=
  fun st =>
    (Ok tt, {| calls := calls st; trace := trace st ++ [ev];
               item_totals := item_totals st |}).

(** [try: c  except Exception as ex: handler ex]. *)
Definition try_except {A : Type} (c : M A) (handler : exn -> M A) : M A :=
  fun st =>
    match c st with
    | (Ok a, st') => (Ok a, st')
    | (Raise ex, st') => handler ex st'
    end.

Declare Scope monad_scope.
Delimit Scope monad_scope with monad.
Notation "x <- c ;; k" := (bind c (fun x => k))
  (at level 100, c at next level, right associativity) : monad_scope.
Notation "c ;; k" := (bind c (fun _ => k))
  (at level 100, right associativity) : monad_scope.
Local Open Scope monad_scope.

(** The longest sleep [time.sleep] takes: the length is converted to a
    signed 64-bit number of nanoseconds, and 9223372037 seconds do not fit. *)
Definition sleep_max : Z := 9223372036.

(** [time.sleep(secs)] for an int: a negative length raises [ValueError],
    one beyond [sleep_max] raises [OverflowError]. *)
Definition sleep (secs : Z) : M unit :=
  if secs <? 0 then raise (ValueError "sleep length must be non-negative")
  else if sleep_max <? secs then raise OverflowError
  else emit (Sleep secs).

(** [a and b] on comparison results: [b] is evaluated only when [a] is
    true. *)
Definition py_and (a b : result bool) : result bool :=
  match a with
  | Ok true => b
  | Ok false => Ok false
  | Raise e => Raise e
  end.

(* ===================================================================== *)
(** ** class CheckBuildStatus *)
(* ===================================================================== *)

Definition SUCCESS : Z := 0.
Definition NEW_ITEMS : Z := 1.
Definition REACTIVATED_ITEMS : Z := 2.
Definition NEW_AND_REACTIVATED_ITEMS : Z := NEW_ITEMS + REACTIVATED_ITEMS.
Definition GENERAL_ERROR : Z := 100.
Definition CHECK_BUILD_ERROR : Z := 101.

Definition REQUEST_RETRIES : Z := 3.

(** The attributes set once by [__init__] (lines 48-54). *)
Record CheckBuildStatus : Type :=
  { access_token : pystr;
    code_version : pystr;
    environment : pystr;
    item_threshold : Z;
    num_checks : Z;
    check_seconds : Z }.

(** ['{}'.format(n)] for an int. *)
Definition format_int (n : Z) : string := NilZero.string_of_int (Z.to_int n).

(** [get_error_and_higher_count] (lines 296-306). *)
Definition get_error_and_higher_count (item_stats : pyval) : result pyval :=
  match py_getitem item_stats "error" with
  | Raise e => Raise e
  | Ok error =>
      match py_getitem item_stats "critical" with
      | Raise e => Raise e
      | Ok critical => py_add error critical
      end
  end.

Section Methods.

Variable self : CheckBuildStatus.

(** The HTTP layer: what the [n]-th call of [requests.get] does
    (counting from 0). *)
Variable net : nat -> http_outcome.

(** [requests.get(url, params=params, headers=headers)]. *)
Definition requests_get : M Response :=
  fun st =>
    let st' :=
      {| calls := S (calls st);
         trace := trace st ++ [HttpGet (code_version self) (environment self)
                                       (access_token self)];
         item_totals := item_totals st |} in
    match net (calls st) with
    | Responds r => (Ok r, st')
    | Fails => (Raise RequestException, st')
    end.

(** [resp.text] and [resp.status_code] where [resp] may be [None]. *)
Definition attr_text (resp : option Response) : result body :=
  match resp with
  | Some r => Ok (text r)
  | None => Raise AttributeError
  end.

Definition attr_status_code (resp : option Response) : result Z :=
  match resp with
  | Some r => Ok (status_code r)
  | None => Raise AttributeError
  end.

(** [make_versions_api_call] (lines 188-209): the [try] catches what
    [requests.get] raises and leaves [resp = None]; the three [print]
    lines come after the [try] statement. *)
Definition make_versions_api_call : M (option Response) :=
  resp <- try_except
            (r <- requests_get ;; ret (Some r))
            (fun ex =>
               emit (LogError "Error making request to Rollbar Versions API") ;;
               ret None) ;;
  emit PrintUrl ;;
  t <- lift (attr_text resp) ;;
  emit (PrintText t) ;;
  sc <- lift (attr_status_code resp) ;;
  emit (PrintStatusCode sc) ;;
  ret resp.

(** The retry loop of [get_version_json_data] (lines 171-177), [n]
    iterations left, [resp] the response of the iteration before. *)
Fixpoint request_loop (n : nat) (resp : option Response)
    : M (option Response) :=
  match n with
  | O => ret resp
  | S n' =>
      resp <- make_versions_api_call ;;
      if match resp with
         | None => true
         | Some r => negb (ok r) || negb (status_code r =? 200)
         end
      then sleep 3 ;; request_loop n' resp
      else ret resp
  end.

(** [get_version_json_data] (lines 163-185).  The local [resp] is unbound
    before the loop; the first of the 3 iterations binds it, so the [None]
    the loop starts from is never read. *)
Definition get_version_json_data : M body :=
  resp <- request_loop (Z.to_nat REQUEST_RETRIES) None ;;
  match resp with
  | None => raise (CheckBuildException "Invalid web response resp = None")
  | Some r =>
      if negb (status_code r =? 200) then
        let msg := ("Invalid web response status code: "
                      ++ format_int (status_code r))%string in
        raise (CheckBuildException msg)
      else ret (text r)
  end.

(** [calculate_item_totals] (lines 212-227). *)
Definition calculate_item_totals (web_resp_text : body) : M unit :=
  json_data <- lift (json_loads web_resp_text) ;;
  result <- lift (py_getitem json_data "result") ;;
  item_stats <- lift (py_getitem result "item_stats") ;;
  s <- lift (py_getitem item_stats "new") ;;
  t_new <- lift (get_error_and_higher_count s) ;;
  s <- lift (py_getitem item_stats "reactivated") ;;
  t_reactivated <- lift (get_error_and_higher_count s) ;;
  s <- lift (py_getitem item_stats "repeated") ;;
  t_repeated <- lift (get_error_and_higher_count s) ;;
  s <- lift (py_getitem item_stats "resolved") ;;
  t_resolved <- lift (get_error_and_higher_count s) ;;
  fun st =>
    (Ok tt,
     {| calls := calls st; trace := trace st;
        item_totals := Some {| new := t_new; reactivated := t_reactivated;
                               repeated := t_repeated;
                               resolved := t_resolved |} |}).

(** [self.item_totals[...]] raises [TypeError] while the attribute is
    [None]. *)
Definition read_item_totals : M ItemTotals :=
  fun st =>
    match item_totals st with
    | Some t => (Ok t, st)
    | None => (Raise TypeError, st)
    end.

(** The pure core of [calculate_status] (lines 235-244). *)
Definition status_of (totals : ItemTotals) : result Z :=
  let status := SUCCESS in
  match py_add (new totals) (reactivated totals) with
  | Raise e => Raise e
  | Ok total =>
      match py_and (py_gt_int total (item_threshold self))
                   (py_gt_int (new totals) 0) with
      | Raise e => Raise e
      | Ok c1 =>
          let status := if c1 then status + NEW_ITEMS else status in
          match py_and (py_gt_int total (item_threshold self))
                       (py_gt_int (reactivated totals) 0) with
          | Raise e => Raise e
          | Ok c2 =>
              Ok (if c2 then status + REACTIVATED_ITEMS else status)
          end
      end
  end.

Definition calculate_status : M Z :=
  totals <- read_item_totals ;;
  lift (status_of totals).

Definition log_check_info (current_check : Z) : M unit :=
  emit (LogCheck current_check (num_checks self)).

Definition log_item_totals_info : M unit :=
  totals <- read_item_totals ;;
  emit (LogTotals totals).

Definition log_status (status : Z) : M unit := emit (LogStatus status).

(** [get_version_status] (lines 146-160). *)
Definition get_version_status : M Z :=
  web_resp_text <- get_version_json_data ;;
  calculate_item_totals web_resp_text ;;
  log_item_totals_info ;;
  status <- calculate_status ;;
  log_status status ;;
  ret status.

(** The [for] loop of [determine_build_quality] (lines 128-135) with [n]
    iterations left, [i] the loop variable and [status] the local variable
    as last assigned.  The loop ends normally ([Ok tt]: range exhausted or
    [break]) or by an exception; the value of [status] is returned either
    way, because the handlers below read it. *)
Fixpoint check_loop (n : nat) (i : Z) (status : Z) (st : state)
    : (Z * result unit) * state :=
  match n with
  | O => ((status, Ok tt), st)
  | S n' =>
      match (log_check_info (i + 1) ;; get_version_status) st with
      | (Raise ex, st1) => ((status, Raise ex), st1)
      | (Ok status, st1) =>
          if status =? SUCCESS then
            match sleep (check_seconds self) st1 with
            | (Raise ex, st2) => ((status, Raise ex), st2)
            | (Ok _, st2) => check_loop n' (i + 1) status st2
            end
          else ((status, Ok tt), st1)
      end
  end.

(** [determine_build_quality] (lines 109-143). *)
Definition determine_build_quality : M Z :=
  fun st =>
    let status := GENERAL_ERROR in
    match check_loop (Z.to_nat (num_checks self)) 0 status st with
    | ((status, Ok _), st') => (Ok status, st')
    | ((status, Raise ex), st') =>
        if is_CheckBuildException ex then
          (emit (LogError "CheckBuildException") ;;
           ret CHECK_BUILD_ERROR) st'
        else
          (emit (LogError "General Error") ;;
           ret status) st'
    end.

End Methods.

(** [CheckBuildStatus.__init__] (lines 32-59). *)
Definition init (unicode_isalnum : N -> bool)
    (access_token code_version environment : pystr)
    (item_threshold num_checks check_seconds : Z) : M CheckBuildStatus :=
  lift (validate_input unicode_isalnum access_token code_version environment
          item_threshold num_checks check_seconds) ;;
  (fun st => (Ok tt, {| calls := calls st; trace := trace st;
                        item_totals := None |})) ;;
  emit LogInit ;;
  ret {| access_token := access_token; code_version := code_version;
         environment := environment; item_threshold := item_threshold;
         num_checks := num_checks; check_seconds := check_seconds |}.

(** The script body (lines 358-364) after [parse_args]: the status returned
    is the exit code; a raised exception ends the process instead. *)
Definition main (unicode_isalnum : N -> bool) (net : nat -> http_outcome)
    (access_token code_version environment : pystr)
    (item_threshold num_checks check_seconds : Z) : M Z :=
  check <- init unicode_isalnum access_token code_version environment
             item_threshold num_checks check_seconds ;;
  determine_build_quality check net.

(* ===================================================================== *)
(** ** Vocabulary of the statements *)
(* ===================================================================== *)

(** The six codes listed in the docstring of [determine_build_quality]. *)
Definition status_codes : list Z :=
  [SUCCESS; NEW_ITEMS; REACTIVATED_ITEMS; NEW_AND_REACTIVATED_ITEMS;
   GENERAL_ERROR; CHECK_BUILD_ERROR].

(** A category object has its two counted fields. *)
Definition has_counts (category : pyval) : bool :=
  match py_getitem category "error", py_getitem category "critical" with
  | Ok _, Ok _ => true
  | _, _ => false
  end.

Definition has_category (item_stats : pyval) (name : string) : bool :=
  match py_getitem item_stats name with
  | Ok category => has_counts category
  | Raise _ => false
  end.

(** The nested structure a response is expected to have:
    [result.item_stats.{new,reactivated,repeated,resolved}.{error,critical}]. *)
Definition expected_structure (json_data : pyval) : bool :=
  match py_getitem json_data "result" with
  | Ok result =>
      match py_getitem result "item_stats" with
      | Ok item_stats =>
          has_category item_stats "new"
          && has_category item_stats "reactivated"
          && has_category item_stats "repeated"
          && has_category item_stats "resolved"
      | Raise _ => false
      end
  | Raise _ => false
  end.

(** A body that does not parse, or parses to a value without the expected
    structure. *)
Definition unusable (b : body) : Prop :=
  match b with
  | Malformed => True
  | Document v => expected_structure v = false
  end.

(** Readings of a trace: the lengths slept, the check numbers announced by
    [log_check_info], the statuses reported by [log_status], and whether an
    event is an error line. *)
Definition sleeps (tr : list event) : list Z :=
  flat_map (fun ev => match ev with Sleep s => [s] | _ => [] end) tr.



Definition is_error (ev : event) : bool :=
  match ev with
  | LogError _ => true
  | _ => false
  end.

(** Sample data: a category with the given error and critical counts, a
    well-formed document with the given new and reactivated counts, a
    response carrying it, and a validated configuration. *)
Definition counts (error critical : Z) : pyval :=
  PDict [("error", PInt error); ("critical", PInt critical)].

Definition stats_document (n r : Z) : pyval :=
  PDict [("result",
          PDict [("item_stats",
                  PDict [("new", counts n 0); ("reactivated", counts r 0);
                         ("repeated", counts 0 0);
                         ("resolved", counts 0 0)])])].

Definition respond (sc : Z) (b : body) : http_outcome :=
  Responds {| status_code := sc; text := b |}.

Definition sample_token : pystr := py "0123456789abcdef0123456789ABCDEF".

Definition sample_config (checks seconds : Z) : CheckBuildStatus :=
  {| access_token := sample_token; code_version := py "1a2b3c";
     environment := py "production"; item_threshold := 0;
     num_checks := checks; check_seconds := seconds |}.

(** An HTTP layer that always does the same, and one that follows a script
    and then always does [rest]. *)
Definition always (o : http_outcome) : nat -> http_outcome := fun _ => o.

Definition script (l : list http_outcome) (rest : http_outcome)
    : nat -> http_outcome :=
  fun n => nth n l rest.

(** The state after one call of [requests.get] and the events [evs] that
    follow it. *)
Definition after_request (self : CheckBuildStatus) (st : state)
    (evs : list event) : state :=
  {| calls := S (calls st);
     trace := trace st
              ++ HttpGet (code_version self) (environment self)
                         (access_token self) :: evs;
     item_totals := item_totals st |}.



(** The environment as [validate_input] tests it: without '.', '-', '_'. *)
Definition stripped (environment : pystr) : pystr :=
  replace "_" (replace "-" (replace "." environment)).

(** What one check makes of a body once it is fetched:
    [calculate_item_totals] and then [calculate_status], run from the
    initial state. *)
Definition check_of_body (self : CheckBuildStatus) (b : body) : result Z :=
  fst ((calculate_item_totals b ;; calculate_status self) initial).

(** The seconds slept in a trace, in total. *)
Definition slept (tr : list event) : Z := fold_right Z.add 0 (sleeps tr).

(** The events [determine_build_quality] can add to the trace. *)
Inductive emitted (self : CheckBuildStatus) : event -> Prop :=
| emitted_check (i : Z) : emitted self (LogCheck i (num_checks self))
| emitted_get :
    emitted self (HttpGet (code_version self) (environment self)
                          (access_token self))
| emitted_error (msg : string) : emitted self (LogError msg)
| emitted_url : emitted self PrintUrl
| emitted_text (t : body) : emitted self (PrintText t)
| emitted_status_code (sc : Z) : emitted self (PrintStatusCode sc)
| emitted_retry_sleep : emitted self (Sleep 3)
| emitted_check_sleep : emitted self (Sleep (check_seconds self))
| emitted_totals (t : ItemTotals) : emitted self (LogTotals t)
| emitted_log_status (s : Z) : emitted self (LogStatus s).

(** The total of one category of [item_stats], as each of lines 222-225
    computes it: [get_error_and_higher_count(item_stats[name])]. *)
Definition category_total (item_stats : pyval) (name : string)
    : result pyval :=
  match py_getitem item_stats name with
  | Ok category => get_error_and_higher_count category
  | Raise e => Raise e
  end.

(** The values Python adds and compares as numbers. *)
Definition is_number (v : pyval) : bool :=
  match v with
  | PBool _ | PInt _ | PFloat _ => true
  | _ => false
  end.

(** An environment of 201 characters: one letter and 200 hyphens. *)
Definition long_environment : pystr := (py "a" ++ repeat 45%N 200)%list.

(* ===================================================================== *)
(** ** The status calculation *)
(* ===================================================================== *)

Lemma status_of_ints (self : CheckBuildStatus) (n r : Z) (p q : pyval) :
  status_of self {| new := PInt n; reactivated := PInt r;
                    repeated := p; resolved := q |}
  = Ok ((if (n + r >? item_threshold self) && (n >? 0)
         then SUCCESS + NEW_ITEMS else SUCCESS)
        + (if (n + r >? item_threshold self) && (r >? 0)
           then REACTIVATED_ITEMS else 0)).
Proof.
  unfold status_of, py_add, py_and, py_gt_int; cbn [new reactivated as_int].
  destruct (n + r >? item_threshold self); cbn [andb];
    destruct (n >? 0), (r >? 0); reflexivity.
Qed.

(** C1: for item totals [new = n] and [reactivated = r] (non-negative
    integers) and a non-negative [item_threshold], [calculate_status]
    returns SUCCESS (0) plus NEW_ITEMS (1) exactly when
    [n + r > item_threshold] and [n > 0], plus REACTIVATED_ITEMS (2) exactly
    when [n + r > item_threshold] and [r > 0], and leaves the state as it
    was.  In particular, with threshold 0, (0, 5) gives 2 and (5, 0) gives
    1; both nonzero with [n + r > item_threshold] gives 3; and (1, 0) with
    threshold 5 gives 0. *)
Theorem calculate_status_flags
    (self : CheckBuildStatus) (st : state) (n r : Z) (p q : pyval) :
  0 <= item_threshold self -> 0 <= n -> 0 <= r ->
  item_totals st = Some {| new := PInt n; reactivated := PInt r;
                           repeated := p; resolved := q |} ->
  calculate_status self st
  = (Ok (SUCCESS
         + (if (n + r >? item_threshold self) && (n >? 0)
            then NEW_ITEMS else 0)
         + (if (n + r >? item_threshold self) && (r >? 0)
            then REACTIVATED_ITEMS else 0)), st)
  /\ (item_threshold self = 0 -> n = 0 -> r = 5 ->
      calculate_status self st = (Ok REACTIVATED_ITEMS, st))
  /\ (item_threshold self = 0 -> n = 5 -> r = 0 ->
      calculate_status self st = (Ok NEW_ITEMS, st))
  /\ (n <> 0 -> r <> 0 -> n + r > item_threshold self ->
      calculate_status self st = (Ok 3, st))
  /\ (item_threshold self = 5 -> n = 1 -> r = 0 ->
      calculate_status self st = (Ok SUCCESS, st)).
Proof.
  intros Ht Hn Hr Hst.
  assert (E : calculate_status self st
              = (Ok (SUCCESS
                     + (if (n + r >? item_threshold self) && (n >? 0)
                        then NEW_ITEMS else 0)
                     + (if (n + r >? item_threshold self) && (r >? 0)
                        then REACTIVATED_ITEMS else 0)), st)).
  { unfold calculate_status, bind, read_item_totals, lift.
    rewrite Hst, status_of_ints.
    destruct ((n + r >? item_threshold self) && (n >? 0)); reflexivity. }
  split; [exact E|].
  rewrite E.
  repeat split.
  - intros -> -> ->. reflexivity.
  - intros -> -> ->. reflexivity.
  - intros Hn0 Hr0 Hgt.
    replace (n + r >? item_threshold self) with true
      by (symmetry; apply Z.gtb_lt; lia).
    replace (n >? 0) with true by (symmetry; apply Z.gtb_lt; lia).
    replace (r >? 0) with true by (symmetry; apply Z.gtb_lt; lia).
    reflexivity.
  - intros -> -> ->. reflexivity.
Qed.

Lemma calculate_status_flags_witness :
  calculate_status (sample_config 1 1)
    {| calls := 1; trace := [];
       item_totals := Some {| new := PInt 2; reactivated := PInt 1;
                              repeated := PInt 0; resolved := PInt 4 |} |}
  = (Ok 3,
     {| calls := 1; trace := [];
        item_totals := Some {| new := PInt 2; reactivated := PInt 1;
                               repeated := PInt 0; resolved := PInt 4 |} |}).
Proof.
  refine (proj1 (calculate_status_flags (sample_config 1 1) _ 2 1
                   (PInt 0) (PInt 4) _ _ _ _)).
  - simpl; lia.
  - lia.
  - lia.
  - reflexivity.
Defined.

(* ===================================================================== *)
(** ** The item totals *)
(* ===================================================================== *)

Lemma dict_get_other (k key : string) (v : pyval) (d : list (string * pyval)) :
  k <> key -> dict_get ((k, v) :: d) key = dict_get d key.
Proof.
  intros Hk. cbn [dict_get].
  destruct (String.eqb_spec k key); [contradiction | reflexivity].
Qed.

Lemma count_of_ints (d : list (string * pyval)) (e c : Z) :
  dict_get d "error" = Some (PInt e) ->
  dict_get d "critical" = Some (PInt c) ->
  get_error_and_higher_count (PDict d) = Ok (PInt (e + c)).
Proof.
  intros He Hc. unfold get_error_and_higher_count, py_getitem.
  rewrite He, Hc. reflexivity.
Qed.

(** C9: for a parsed response with the expected structure and integer
    counts, [calculate_item_totals] stores, for each of new, reactivated,
    repeated and resolved, that category's error count plus its critical
    count; an entry of a category under any other severity name does not
    change its total.  E.g. new = {error: 2, critical: 1, warning: 99}
    gives the total 3. *)
Theorem calculate_item_totals_sums
    (json_data result item_stats : pyval)
    (d_new d_rea d_rep d_res : list (string * pyval))
    (e1 c1 e2 c2 e3 c3 e4 c4 : Z) (st : state) :
  py_getitem json_data "result" = Ok result ->
  py_getitem result "item_stats" = Ok item_stats ->
  py_getitem item_stats "new" = Ok (PDict d_new) ->
  py_getitem item_stats "reactivated" = Ok (PDict d_rea) ->
  py_getitem item_stats "repeated" = Ok (PDict d_rep) ->
  py_getitem item_stats "resolved" = Ok (PDict d_res) ->
  dict_get d_new "error" = Some (PInt e1) ->
  dict_get d_new "critical" = Some (PInt c1) ->
  dict_get d_rea "error" = Some (PInt e2) ->
  dict_get d_rea "critical" = Some (PInt c2) ->
  dict_get d_rep "error" = Some (PInt e3) ->
  dict_get d_rep "critical" = Some (PInt c3) ->
  dict_get d_res "error" = Some (PInt e4) ->
  dict_get d_res "critical" = Some (PInt c4) ->
  calculate_item_totals (Document json_data) st
  = (Ok tt,
     {| calls := calls st; trace := trace st;
        item_totals := Some {| new := PInt (e1 + c1);
                               reactivated := PInt (e2 + c2);
                               repeated := PInt (e3 + c3);
                               resolved := PInt (e4 + c4) |} |})
  /\ (forall (severity : string) (count : pyval) (d : list (string * pyval)),
        severity <> "error" -> severity <> "critical" ->
        get_error_and_higher_count (PDict ((severity, count) :: d))
        = get_error_and_higher_count (PDict d))
  /\ get_error_and_higher_count
       (PDict [("error", PInt 2); ("critical", PInt 1); ("warning", PInt 99)])
     = Ok (PInt 3).
Proof.
  intros H1 H2 H3 H4 H5 H6 He1 Hc1 He2 Hc2 He3 Hc3 He4 Hc4.
  split; [|split].
  - unfold calculate_item_totals, bind, lift, json_loads.
    rewrite H1, H2, H3, (count_of_ints _ _ _ He1 Hc1).
    rewrite H4, (count_of_ints _ _ _ He2 Hc2).
    rewrite H5, (count_of_ints _ _ _ He3 Hc3).
    rewrite H6, (count_of_ints _ _ _ He4 Hc4).
    reflexivity.
  - intros severity count d Hse Hsc.
    unfold get_error_and_higher_count, py_getitem.
    rewrite !dict_get_other by assumption. reflexivity.
  - reflexivity.
Qed.

Lemma calculate_item_totals_sums_witness :
  calculate_item_totals
    (Document
       (PDict [("result",
                PDict [("item_stats",
                        PDict [("new", PDict [("error", PInt 2);
                                              ("critical", PInt 1);
                                              ("warning", PInt 99)]);
                               ("reactivated", counts 0 4);
                               ("repeated", counts 5 6);
                               ("resolved", counts 7 0)])])]))
    initial
  = (Ok tt,
     {| calls := 0; trace := [];
        item_totals := Some {| new := PInt 3; reactivated := PInt 4;
                               repeated := PInt 11;
                               resolved := PInt 7 |} |}).
Proof.
  refine (proj1 (calculate_item_totals_sums _ _ _ _ _ _ _ 2 1 0 4 5 6 7 0
                   initial _ _ _ _ _ _ _ _ _ _ _ _ _ _));
    reflexivity.
Defined.

(* ===================================================================== *)
(** ** Validation *)
(* ===================================================================== *)

Lemma sample_token_valid (U : N -> bool) :
  isalnum U sample_token = true /\ len sample_token = 32.
Proof. split; reflexivity. Qed.

(** The token is tested first, and nothing after that test reads it. *)
Lemma validate_input_token (U : N -> bool) (tok cv env : pystr) (thr nc cs : Z) :
  validate_input U tok cv env thr nc cs
  = if isalnum U tok && (len tok =? 32)
    then validate_input U sample_token cv env thr nc cs
    else Raise (ValueError "The access_token argument is not valid").
Proof.
  unfold validate_input.
  destruct (sample_token_valid U) as [-> ->].
  destruct (isalnum U tok), (len tok =? 32); reflexivity.
Qed.

Lemma validate_input_other_errors (U : N -> bool) (cv env : pystr) (thr nc cs : Z) :
  validate_input U sample_token cv env thr nc cs
  <> Raise (ValueError "The access_token argument is not valid").
Proof.
  unfold validate_input.
  destruct (sample_token_valid U) as [-> ->]. cbn [negb orb Z.eqb Pos.eqb].
  repeat match goal with
         | |- context [if ?b then _ else _] => destruct b
         end; discriminate.
Qed.

(** C8: [validate_input] raises its access_token error if and only if the
    token is not an alphanumeric string of length exactly 32; when the
    other five arguments are acceptable it accepts if and only if the token
    is alphanumeric of length 32; and a rejected token makes the program
    raise that [ValueError] from the constructor with the state untouched:
    no request has been made and nothing has happened. *)
Theorem access_token_validation
    (U : N -> bool) (net : nat -> http_outcome)
    (tok cv env : pystr) (thr nc cs : Z) (st : state) :
  (validate_input U tok cv env thr nc cs
   = Raise (ValueError "The access_token argument is not valid")
   <-> isalnum U tok && (len tok =? 32) = false)
  /\ ((exists tok0, validate_input U tok0 cv env thr nc cs = Ok tt) ->
      (validate_input U tok cv env thr nc cs = Ok tt
       <-> isalnum U tok && (len tok =? 32) = true))
  /\ (isalnum U tok && (len tok =? 32) = false ->
      main U net tok cv env thr nc cs st
      = (Raise (ValueError "The access_token argument is not valid"), st)).
Proof.
  split; [|split].
  - rewrite validate_input_token.
    destruct (isalnum U tok && (len tok =? 32)).
    + split; [|discriminate].
      intros H. now apply validate_input_other_errors in H.
    + split; reflexivity.
  - intros [tok0 H0]. rewrite validate_input_token in H0.
    rewrite validate_input_token.
    destruct (isalnum U tok0 && (len tok0 =? 32)); [|discriminate].
    rewrite H0.
    destruct (isalnum U tok && (len tok =? 32)); split;
      solve [reflexivity | discriminate].
  - intros H. unfold main, init, bind, lift.
    rewrite validate_input_token, H. reflexivity.
Qed.

(** C7 (the code at the failing input): an environment of 201 characters,
    one letter followed by 200 hyphens, is accepted, because the length
    that [validate_input] compares with 200 is the length of the stripped
    string. *)
Theorem long_environment_accepted (U : N -> bool) :
  len long_environment = 201
  /\ validate_input U sample_token (py "1a2b3c") long_environment 0 1 1 = Ok tt.
Proof. split; reflexivity. Qed.

(* ===================================================================== *)
(** ** The retrying fetch *)
(* ===================================================================== *)

Lemma app_cons_assoc {A : Type} (l : list A) (x : A) (m k : list A) :
  ((l ++ x :: m) ++ k = l ++ x :: m ++ k)%list.
Proof. now rewrite <- app_assoc. Qed.

(** A call that gets a response prints it and returns it. *)
Lemma make_versions_api_call_responds
    (self : CheckBuildStatus) (net : nat -> http_outcome) (st : state)
    (r : Response) :
  net (calls st) = Responds r ->
  make_versions_api_call self net st
  = (Ok (Some r),
     after_request self st
       [PrintUrl; PrintText (text r); PrintStatusCode (status_code r)]).
Proof.
  intros H.
  unfold make_versions_api_call, bind, try_except, requests_get, ret, emit,
    lift, attr_text, attr_status_code, after_request.
  rewrite H. cbn. rewrite <- !app_assoc. reflexivity.
Qed.

(** A call whose request raises logs the failure, prints the URL and then
    raises [AttributeError] at [resp.text], [resp] being [None]. *)
Lemma make_versions_api_call_fails
    (self : CheckBuildStatus) (net : nat -> http_outcome) (st : state) :
  net (calls st) = Fails ->
  make_versions_api_call self net st
  = (Raise AttributeError,
     after_request self st
       [LogError "Error making request to Rollbar Versions API"; PrintUrl]).
Proof.
  intros H.
  unfold make_versions_api_call, bind, try_except, requests_get, ret, emit,
    lift, attr_text, attr_status_code, after_request.
  rewrite H. cbn. rewrite <- !app_assoc. reflexivity.
Qed.

(** [not resp or resp.status_code != 200] for a response: status 200 is
    never a 4xx or 5xx, so only the status code decides. *)
Lemma retry_condition (r : Response) :
  negb (ok r) || negb (status_code r =? 200) = negb (status_code r =? 200).
Proof.
  unfold ok. destruct (Z.eqb_spec (status_code r) 200) as [->|_].
  - reflexivity.
  - now rewrite orb_true_r.
Qed.

(** One turn of the retry loop, by what the request does. *)
Lemma request_loop_200
    (self : CheckBuildStatus) (net : nat -> http_outcome) (n : nat)
    (resp : option Response) (st : state) (r : Response) :
  net (calls st) = Responds r -> status_code r = 200 ->
  request_loop self net (S n) resp st
  = (Ok (Some r),
     after_request self st
       [PrintUrl; PrintText (text r); PrintStatusCode (status_code r)]).
Proof.
  intros H H200. cbn [request_loop]. unfold bind at 1.
  rewrite (make_versions_api_call_responds _ _ _ _ H), retry_condition, H200.
  reflexivity.
Qed.

Lemma request_loop_not_200
    (self : CheckBuildStatus) (net : nat -> http_outcome) (n : nat)
    (resp : option Response) (st : state) (r : Response) :
  net (calls st) = Responds r -> status_code r <> 200 ->
  request_loop self net (S n) resp st
  = request_loop self net n (Some r)
      (after_request self st
         [PrintUrl; PrintText (text r); PrintStatusCode (status_code r);
          Sleep 3]).
Proof.
  intros H H200. cbn [request_loop]. unfold bind at 1.
  rewrite (make_versions_api_call_responds _ _ _ _ H), retry_condition.
  destruct (Z.eqb_spec (status_code r) 200) as [|_]; [contradiction|].
  cbn [negb]. unfold bind, sleep, emit, after_request. cbn.
  rewrite app_cons_assoc. reflexivity.
Qed.

Lemma request_loop_fails
    (self : CheckBuildStatus) (net : nat -> http_outcome) (n : nat)
    (resp : option Response) (st : state) :
  net (calls st) = Fails ->
  request_loop self net (S n) resp st
  = (Raise AttributeError,
     after_request self st
       [LogError "Error making request to Rollbar Versions API"; PrintUrl]).
Proof.
  intros H. cbn [request_loop]. unfold bind at 1.
  now rewrite (make_versions_api_call_fails _ _ _ H).
Qed.

Lemma request_loop_calls
    (self : CheckBuildStatus) (net : nat -> http_outcome) (n : nat) :
  forall (resp : option Response) (st : state),
    (calls st <= calls (snd (request_loop self net n resp st))
     <= calls st + n)%nat.
Proof.
  induction n as [|n IH]; intros resp st.
  - cbn. lia.
  - destruct (net (calls st)) as [r|] eqn:Hnet.
    + destruct (Z.eq_dec (status_code r) 200) as [H200|H200].
      * rewrite (request_loop_200 _ _ _ _ _ _ Hnet H200). cbn. lia.
      * rewrite (request_loop_not_200 _ _ _ _ _ _ Hnet H200).
        match goal with
        | |- context [request_loop _ _ n ?x ?s] => specialize (IH x s)
        end.
        cbn [calls after_request] in IH. lia.
    + rewrite (request_loop_fails _ _ _ _ _ Hnet). cbn. lia.
Qed.

Lemma get_version_json_data_unfold
    (self : CheckBuildStatus) (net : nat -> http_outcome) (st : state) :
  get_version_json_data self net st
  = match request_loop self net 3 None st with
    | (Ok None, st') =>
        (Raise (CheckBuildException "Invalid web response resp = None"), st')
    | (Ok (Some r), st') =>
        if negb (status_code r =? 200) then
          (Raise (CheckBuildException
                    ("Invalid web response status code: "
                       ++ format_int (status_code r))%string), st')
        else (Ok (text r), st')
    | (Raise e, st') => (Raise e, st')
    end.
Proof.
  unfold get_version_json_data, bind.
  change (Z.to_nat REQUEST_RETRIES) with 3%nat.
  destruct (request_loop self net 3 None st) as [[[r|]|e] st']; try reflexivity.
  destruct (negb (status_code r =? 200)); reflexivity.
Qed.

(** The fetch makes at most 3 requests. *)
Lemma get_version_json_data_calls
    (self : CheckBuildStatus) (net : nat -> http_outcome) (st : state) :
  (calls st <= calls (snd (get_version_json_data self net st))
   <= calls st + 3)%nat.
Proof.
  rewrite get_version_json_data_unfold.
  pose proof (request_loop_calls self net 3 None st) as H.
  destruct (request_loop self net 3 None st) as [[[r|]|e] st'];
    cbn [snd] in *; try exact H.
  destruct (negb (status_code r =? 200)); exact H.
Qed.

(** The fetch returns the body of the first attempt answered with status
    200, [k < 3] attempts answered otherwise coming before it. *)
Lemma get_version_json_data_first_200
    (self : CheckBuildStatus) (net : nat -> http_outcome) (st : state)
    (k : nat) (b : body) :
  (k < 3)%nat ->
  (forall j, (j < k)%nat ->
     exists r, net (calls st + j)%nat = Responds r /\ status_code r <> 200) ->
  net (calls st + k)%nat = respond 200 b ->
  fst (get_version_json_data self net st) = Ok b
  /\ calls (snd (get_version_json_data self net st)) = (calls st + k + 1)%nat
  /\ item_totals (snd (get_version_json_data self net st)) = item_totals st.
Proof.
  intros Hk Hpre H200. rewrite get_version_json_data_unfold.
  destruct k as [|[|[|k]]]; [| | |lia].
  - rewrite Nat.add_0_r in H200.
    rewrite (request_loop_200 _ _ _ _ _ _ H200 eq_refl). cbn.
    repeat split; lia.
  - destruct (Hpre 0%nat ltac:(lia)) as (r0 & H0 & Hs0).
    rewrite Nat.add_0_r in H0.
    rewrite (request_loop_not_200 _ _ _ _ _ _ H0 Hs0).
    rewrite Nat.add_1_r in H200.
    rewrite (request_loop_200 self net _ _ (after_request self st _) _
               H200 eq_refl).
    cbn. repeat split; lia.
  - destruct (Hpre 0%nat ltac:(lia)) as (r0 & H0 & Hs0).
    destruct (Hpre 1%nat ltac:(lia)) as (r1 & H1 & Hs1).
    rewrite Nat.add_0_r in H0. rewrite Nat.add_1_r in H1.
    rewrite (request_loop_not_200 _ _ _ _ _ _ H0 Hs0).
    rewrite (request_loop_not_200 self net _ _ (after_request self st _) _
               H1 Hs1).
    replace (calls st + 2)%nat with (S (S (calls st))) in H200 by lia.
    rewrite (request_loop_200 self net _ _
               (after_request self (after_request self st _) _) _
               H200 eq_refl).
    cbn. repeat split; lia.
Qed.

(** Three attempts answered with a status other than 200 exhaust the
    retries: the fetch raises [CheckBuildException] naming the status code
    of the last response, after exactly 3 requests. *)
Lemma get_version_json_data_exhausted
    (self : CheckBuildStatus) (net : nat -> http_outcome) (st : state)
    (r0 r1 r2 : Response) :
  net (calls st) = Responds r0 -> status_code r0 <> 200 ->
  net (S (calls st)) = Responds r1 -> status_code r1 <> 200 ->
  net (S (S (calls st))) = Responds r2 -> status_code r2 <> 200 ->
  fst (get_version_json_data self net st)
  = Raise (CheckBuildException
             ("Invalid web response status code: "
                ++ format_int (status_code r2))%string)
  /\ calls (snd (get_version_json_data self net st)) = (calls st + 3)%nat.
Proof.
  intros H0 Hs0 H1 Hs1 H2 Hs2. rewrite get_version_json_data_unfold.
  rewrite (request_loop_not_200 _ _ _ _ _ _ H0 Hs0).
  rewrite (request_loop_not_200 self net _ _ (after_request self st _) _
             H1 Hs1).
  rewrite (request_loop_not_200 self net _ _
             (after_request self (after_request self st _) _) _ H2 Hs2).
  cbn [request_loop ret].
  destruct (Z.eqb_spec (status_code r2) 200) as [|_]; [contradiction|].
  cbn. split; [reflexivity | lia].
Qed.

(** C6 (the code at the failing input): two attempts answered 503 and a
    third whose request raises.  The final attempt produced no response
    object, yet the fetch does not fail with the [CheckBuildException]
    'Invalid web response resp = None': [make_versions_api_call] itself
    raises [AttributeError] at [print(resp.text)]. *)
Theorem no_response_on_last_attempt :
  fst (get_version_json_data (sample_config 1 1)
         (script [respond 503 Malformed; respond 503 Malformed] Fails)
         initial)
  = Raise AttributeError
  /\ calls (snd (get_version_json_data (sample_config 1 1)
                   (script [respond 503 Malformed; respond 503 Malformed] Fails)
                   initial)) = 3%nat.
Proof. split; reflexivity. Qed.

(* ===================================================================== *)
(** ** One check *)
(* ===================================================================== *)

Lemma py_getitem_raises (v : pyval) (key : string) (e : exn) :
  py_getitem v key = Raise e -> is_CheckBuildException e = false.
Proof.
  unfold py_getitem.
  destruct v; try (intros [= <-]; reflexivity).
  destruct (dict_get d key); [discriminate | intros [= <-]; reflexivity].
Qed.

Lemma float_of_int_raises (z : Z) (e : exn) :
  float_of_int z = Raise e -> is_CheckBuildException e = false.
Proof.
  unfold float_of_int.
  destruct (binary_normalize prec emax z 0 false);
    try discriminate; intros [= <-]; reflexivity.
Qed.

Lemma py_add_raises (a b : pyval) (e : exn) :
  py_add a b = Raise e -> is_CheckBuildException e = false.
Proof.
  unfold py_add.
  destruct a, b; cbn [as_int];
    try discriminate; try (intros [= <-]; reflexivity);
    match goal with
    | |- context [float_of_int ?z] =>
        destruct (float_of_int z) eqn:E;
        [discriminate | intros [= <-]; exact (float_of_int_raises _ _ E)]
    end.
Qed.

Lemma get_error_and_higher_count_raises (c : pyval) (e : exn) :
  get_error_and_higher_count c = Raise e -> is_CheckBuildException e = false.
Proof.
  unfold get_error_and_higher_count.
  destruct (py_getitem c "error") eqn:E1.
  - destruct (py_getitem c "critical") eqn:E2.
    + apply py_add_raises.
    + intros [= <-]. exact (py_getitem_raises _ _ _ E2).
  - intros [= <-]. exact (py_getitem_raises _ _ _ E1).
Qed.

Lemma get_error_and_higher_count_ok (c t : pyval) :
  get_error_and_higher_count c = Ok t -> has_counts c = true.
Proof.
  unfold get_error_and_higher_count, has_counts.
  destruct (py_getitem c "error"); [|discriminate].
  destruct (py_getitem c "critical"); [reflexivity | discriminate].
Qed.

(** Destructs the lookups and sums of [calculate_item_totals] in turn. *)
Ltac step_totals :=
  match goal with
  | |- context [match py_getitem ?v ?k with _ => _ end] =>
      let E := fresh "E" in destruct (py_getitem v k) eqn:E
  | |- context [match get_error_and_higher_count ?v with _ => _ end] =>
      let E := fresh "E" in destruct (get_error_and_higher_count v) eqn:E
  end.

(** What [calculate_item_totals] raises is never a [CheckBuildException],
    and it leaves the state as it was. *)
Lemma calculate_item_totals_raises (b : body) (st st' : state) (e : exn) :
  calculate_item_totals b st = (Raise e, st') ->
  is_CheckBuildException e = false /\ st' = st.
Proof.
  unfold calculate_item_totals, bind, lift, json_loads.
  destruct b as [|v]; [intros [= <- <-]; split; reflexivity|].
  repeat step_totals; try discriminate;
    intros [= <- <-]; (split; [|reflexivity]);
    eauto using py_getitem_raises, get_error_and_higher_count_raises.
Qed.

(** When it returns, the body had the expected structure. *)
Lemma calculate_item_totals_ok (b : body) (st st' : state) :
  calculate_item_totals b st = (Ok tt, st') ->
  exists v, b = Document v /\ expected_structure v = true.
Proof.
  unfold calculate_item_totals, bind, lift, json_loads.
  destruct b as [|v]; [discriminate|].
  intros H. exists v. split; [reflexivity|]. revert H.
  unfold expected_structure, has_category.
  repeat step_totals; try discriminate. intros _.
  repeat match goal with
         | H : get_error_and_higher_count _ = Ok _ |- _ =>
             apply get_error_and_higher_count_ok in H; rewrite H; clear H
         end.
  reflexivity.
Qed.

Lemma calculate_item_totals_unusable (b : body) (st : state) :
  unusable b ->
  exists e, calculate_item_totals b st = (Raise e, st)
            /\ is_CheckBuildException e = false.
Proof.
  intros Hb.
  destruct (calculate_item_totals b st) as [[[]|e] st'] eqn:E.
  - apply calculate_item_totals_ok in E. destruct E as (v & -> & Hv).
    cbn in Hb. congruence.
  - destruct (calculate_item_totals_raises _ _ _ _ E) as [He ->]. eauto.
Qed.

Lemma status_of_range (self : CheckBuildStatus) (t : ItemTotals) (s : Z) :
  status_of self t = Ok s -> In s [0; 1; 2; 3].
Proof.
  unfold status_of.
  destruct (py_add (new t) (reactivated t)); [|discriminate].
  destruct (py_and _ _) as [[]|]; [| |discriminate];
    (destruct (py_and _ _) as [[]|]; [| |discriminate]);
    intros [= <-]; cbn; auto.
Qed.

Lemma get_version_status_unfold
    (self : CheckBuildStatus) (net : nat -> http_outcome) (st : state) :
  get_version_status self net st
  = match get_version_json_data self net st with
    | (Raise e, st1) => (Raise e, st1)
    | (Ok b, st1) =>
        match calculate_item_totals b st1 with
        | (Raise e, st2) => (Raise e, st2)
        | (Ok _, st2) =>
            match item_totals st2 with
            | None => (Raise TypeError, st2)
            | Some t =>
                match status_of self t with
                | Raise e => (Raise e, snd (emit (LogTotals t) st2))
                | Ok s =>
                    (Ok s, snd (emit (LogStatus s)
                                  (snd (emit (LogTotals t) st2))))
                end
            end
        end
    end.
Proof.
  unfold get_version_status, bind.
  destruct (get_version_json_data self net st) as [[b|e] st1]; [|reflexivity].
  destruct (calculate_item_totals b st1) as [[u|e] st2]; [|reflexivity].
  unfold log_item_totals_info, calculate_status, bind, read_item_totals.
  destruct (item_totals st2) as [t|] eqn:Et; [|reflexivity].
  cbn. rewrite Et. unfold lift.
  destruct (status_of self t); reflexivity.
Qed.

(** A check that returns, returns 0, 1, 2 or 3. *)
Lemma get_version_status_range
    (self : CheckBuildStatus) (net : nat -> http_outcome) (st st' : state)
    (s : Z) :
  get_version_status self net st = (Ok s, st') -> In s [0; 1; 2; 3].
Proof.
  rewrite get_version_status_unfold.
  destruct (get_version_json_data self net st) as [[b|e] st1]; [|discriminate].
  destruct (calculate_item_totals b st1) as [[u|e] st2]; [|discriminate].
  destruct (item_totals st2) as [t|]; [|discriminate].
  destruct (status_of self t) as [s0|e] eqn:Es; [|discriminate].
  intros [= <- _]. exact (status_of_range _ _ _ Es).
Qed.

(* ===================================================================== *)
(** ** The check loop *)
(* ===================================================================== *)

(** The state in which the first check starts. *)
Lemma first_check_state (self : CheckBuildStatus) (net : nat -> http_outcome)
    (st : state) :
  (log_check_info self (0 + 1) ;; get_version_status self net) st
  = get_version_status self net (snd (emit (LogCheck 1 (num_checks self)) st)).
Proof. reflexivity. Qed.

(** An exception in the first check decides the result. *)
Lemma determine_build_quality_first_raise
    (self : CheckBuildStatus) (net : nat -> http_outcome) (st st1 : state)
    (e : exn) :
  1 <= num_checks self ->
  get_version_status self net (snd (emit (LogCheck 1 (num_checks self)) st))
  = (Raise e, st1) ->
  determine_build_quality self net st
  = if is_CheckBuildException e
    then (Ok CHECK_BUILD_ERROR, snd (emit (LogError "CheckBuildException") st1))
    else (Ok GENERAL_ERROR, snd (emit (LogError "General Error") st1)).
Proof.
  intros Hn H. unfold determine_build_quality.
  destruct (Z.to_nat (num_checks self)) as [|n] eqn:En; [lia|].
  cbn [check_loop]. rewrite first_check_state, H.
  destruct (is_CheckBuildException e); reflexivity.
Qed.

(** C4 (the code at the failing input): when every request raises a
    network-level failure, the first attempt is not retried:
    [make_versions_api_call] raises [AttributeError], one request has been
    made, and [determine_build_quality] returns GENERAL_ERROR (100). *)
Theorem network_failure_not_retried
    (self : CheckBuildStatus) (st : state) :
  1 <= num_checks self ->
  fst (determine_build_quality self (always Fails) st) = Ok GENERAL_ERROR
  /\ calls (snd (determine_build_quality self (always Fails) st))
     = S (calls st).
Proof.
  intros Hn.
  rewrite (determine_build_quality_first_raise self (always Fails) st
             (after_request self (snd (emit (LogCheck 1 (num_checks self)) st))
                [LogError "Error making request to Rollbar Versions API";
                 PrintUrl])
             AttributeError Hn).
  - split; reflexivity.
  - rewrite get_version_status_unfold, get_version_json_data_unfold.
    now rewrite request_loop_fails.
Qed.

Lemma network_failure_not_retried_witness :
  fst (determine_build_quality (sample_config 1 1) (always Fails) initial)
  = Ok 100
  /\ calls (snd (determine_build_quality (sample_config 1 1) (always Fails)
                   initial)) = 1%nat.
Proof.
  apply (network_failure_not_retried (sample_config 1 1) initial).
  simpl; lia.
Defined.

(** C5 (the code at the failing input): two checks; the first finds no
    items, the second receives a body that is not JSON, so [json.loads]
    raises a [JSONDecodeError], which is not a [CheckBuildException].  The
    handler logs 'General Error' and the result is SUCCESS (0), the status
    left by the first check, not GENERAL_ERROR (100). *)
Theorem later_general_error_returns_success :
  fst (determine_build_quality (sample_config 2 1)
         (script [respond 200 (Document (stats_document 0 0))]
                 (respond 200 Malformed))
         initial)
  = Ok SUCCESS
  /\ In (LogError "General Error")
        (trace (snd (determine_build_quality (sample_config 2 1)
                       (script [respond 200 (Document (stats_document 0 0))]
                               (respond 200 Malformed))
                       initial))).
Proof. split; [reflexivity|]. vm_compute. tauto. Qed.

(** C3 (counterexample): one check whose response, status 200, has a body
    that is not JSON; the result is GENERAL_ERROR (100), not CHECK_ERROR
    (101). *)
Lemma malformed_body_is_general_error :
  fst (determine_build_quality (sample_config 1 1)
         (always (respond 200 Malformed)) initial)
  = Ok GENERAL_ERROR
  /\ GENERAL_ERROR <> CHECK_BUILD_ERROR.
Proof. split; [reflexivity | discriminate]. Qed.

(** C3 (amended): when the first check receives, from the first of its at
    most 3 attempts answered with status 200, a body that is not valid JSON
    or lacks the expected nested structure, [determine_build_quality]
    returns GENERAL_ERROR (100): it does not raise, and the code is not
    CHECK_ERROR. *)
Theorem unusable_body_on_first_check
    (self : CheckBuildStatus) (net : nat -> http_outcome) (st : state)
    (k : nat) (b : body) :
  1 <= num_checks self ->
  (k < 3)%nat ->
  (forall j, (j < k)%nat ->
     exists r, net (calls st + j)%nat = Responds r /\ status_code r <> 200) ->
  net (calls st + k)%nat = respond 200 b ->
  unusable b ->
  fst (determine_build_quality self net st) = Ok GENERAL_ERROR.
Proof.
  intros Hn Hk Hpre H200 Hb.
  set (st0 := snd (emit (LogCheck 1 (num_checks self)) st)).
  destruct (get_version_json_data_first_200 self net st0 k b Hk Hpre H200)
    as (Hfetch & _ & _).
  destruct (get_version_json_data self net st0) as [r st1] eqn:E1.
  cbn [fst] in Hfetch. subst r.
  destruct (calculate_item_totals_unusable b st1 Hb) as (e & E2 & He).
  rewrite (determine_build_quality_first_raise self net st st1 e Hn).
  - rewrite He. reflexivity.
  - fold st0. rewrite get_version_status_unfold, E1, E2. reflexivity.
Qed.

Lemma unusable_body_on_first_check_witness :
  fst (determine_build_quality (sample_config 3 1)
         (script [respond 503 Malformed]
                 (respond 200 (Document (PDict [("result", PDict [])]))))
         initial)
  = Ok 100.
Proof.
  apply (unusable_body_on_first_check (sample_config 3 1) _ initial 1
           (Document (PDict [("result", PDict [])]))).
  - simpl; lia.
  - lia.
  - intros j Hj. assert (j = 0%nat) as -> by lia.
    exists {| status_code := 503; text := Malformed |}.
    split; [reflexivity | simpl; lia].
  - reflexivity.
  - reflexivity.
Defined.

Lemma loop_iteration_state
    (self : CheckBuildStatus) (net : nat -> http_outcome) (i : Z) (st : state) :
  (log_check_info self (i + 1) ;; get_version_status self net) st
  = get_version_status self net
      (snd (emit (LogCheck (i + 1) (num_checks self)) st)).
Proof. reflexivity. Qed.

(** Whatever the loop does, the local variable [status] holds one of the
    six codes when it ends. *)
Lemma check_loop_status_codes
    (self : CheckBuildStatus) (net : nat -> http_outcome) (n : nat) :
  forall (i status : Z) (st : state),
    In status status_codes ->
    In (fst (fst (check_loop self net n i status st))) status_codes.
Proof.
  induction n as [|n IH]; intros i status st Hs; [exact Hs|].
  cbn [check_loop]. rewrite loop_iteration_state.
  destruct (get_version_status self net _) as [[s|e] st1] eqn:E; [|exact Hs].
  assert (Hs' : In s status_codes).
  { apply get_version_status_range in E. cbn in E |- *. tauto. }
  destruct (s =? SUCCESS); [|exact Hs'].
  destruct (sleep (check_seconds self) st1) as [[u|e] st2]; [|exact Hs'].
  apply IH, Hs'.
Qed.

(** C10: whatever the configuration, the state and the HTTP layer (every
    call may answer with any status code and any body, or raise),
    [determine_build_quality] returns normally, and what it returns is one
    of the six codes 0, 1, 2, 3, 100, 101. *)
Theorem determine_build_quality_returns_a_code
    (self : CheckBuildStatus) (net : nat -> http_outcome) (st : state) :
  exists (status : Z) (st' : state),
    determine_build_quality self net st = (Ok status, st')
    /\ In status [0; 1; 2; 3; 100; 101].
Proof.
  unfold determine_build_quality.
  pose proof (check_loop_status_codes self net (Z.to_nat (num_checks self))
                0 GENERAL_ERROR st) as H.
  destruct (check_loop self net (Z.to_nat (num_checks self)) 0 GENERAL_ERROR st)
    as [[status [u|e]] st'].
  - exists status, st'. split; [reflexivity|]. apply H. cbn. tauto.
  - destruct (is_CheckBuildException e).
    + eexists _, _. split; [reflexivity|]. cbn. tauto.
    + eexists _, _. split; [reflexivity|]. apply H. cbn. tauto.
Qed.

(* ===================================================================== *)
(** ** The trace of the check loop *)
(* ===================================================================== *)



Lemma calculate_item_totals_trace (b : body) (st : state) :
  trace (snd (calculate_item_totals b st)) = trace st.
Proof.
  unfold calculate_item_totals, bind, lift, json_loads.
  destruct b as [|v]; [reflexivity|].
  repeat step_totals; reflexivity.
Qed.










Section Shape.

Variables cs total : Z.


End Shape.




Section ShapeFacts.

Variables cs total : Z.





End ShapeFacts.




(* ===================================================================== *)
(** ** Further properties of the fetch, the validation and the loop *)
(* ===================================================================== *)

(** X1: whatever the HTTP layer does, one fetch makes at most 3 requests. *)
Theorem fetch_makes_at_most_three_requests
    (self : CheckBuildStatus) (net : nat -> http_outcome) (st : state) :
  (calls st <= calls (snd (get_version_json_data self net st))
   <= calls st + Z.to_nat REQUEST_RETRIES)%nat.
Proof. exact (get_version_json_data_calls self net st). Qed.

(** X2: when the first [k < 3] attempts are answered with a status other
    than 200 and the next one with status 200, the fetch returns the body of
    that response after exactly [k + 1] requests. *)
Theorem fetch_returns_first_200_body
    (self : CheckBuildStatus) (net : nat -> http_outcome) (st : state)
    (k : nat) (b : body) :
  (k < 3)%nat ->
  (forall j, (j < k)%nat ->
     exists r, net (calls st + j)%nat = Responds r /\ status_code r <> 200) ->
  net (calls st + k)%nat = respond 200 b ->
  fst (get_version_json_data self net st) = Ok b
  /\ calls (snd (get_version_json_data self net st)) = (calls st + k + 1)%nat.
Proof.
  intros Hk Hpre H200.
  destruct (get_version_json_data_first_200 self net st k b Hk Hpre H200)
    as (H1 & H2 & _).
  now split.
Qed.

Lemma fetch_returns_first_200_body_witness :
  fst (get_version_json_data (sample_config 1 1)
         (script [respond 500 Malformed; respond 404 Malformed]
                 (respond 200 (Document (stats_document 1 0))))
         initial)
  = Ok (Document (stats_document 1 0))
  /\ calls (snd (get_version_json_data (sample_config 1 1)
                   (script [respond 500 Malformed; respond 404 Malformed]
                           (respond 200 (Document (stats_document 1 0))))
                   initial)) = 3%nat.
Proof.
  apply (fetch_returns_first_200_body (sample_config 1 1) _ initial 2).
  - lia.
  - intros [|[|j]] Hj; [| |lia]; eexists; (split; [reflexivity | simpl; lia]).
  - reflexivity.
Defined.

(** X3: three attempts answered with a status other than 200 make the
    fetch raise [CheckBuildException] with the message that names the status
    code of the third response, after exactly 3 requests. *)
Theorem fetch_exhaustion_names_status
    (self : CheckBuildStatus) (net : nat -> http_outcome) (st : state)
    (r0 r1 r2 : Response) :
  net (calls st) = Responds r0 -> status_code r0 <> 200 ->
  net (S (calls st)) = Responds r1 -> status_code r1 <> 200 ->
  net (S (S (calls st))) = Responds r2 -> status_code r2 <> 200 ->
  fst (get_version_json_data self net st)
  = Raise (CheckBuildException
             ("Invalid web response status code: "
                ++ format_int (status_code r2))%string)
  /\ calls (snd (get_version_json_data self net st)) = (calls st + 3)%nat.
Proof. apply get_version_json_data_exhausted. Qed.

Lemma fetch_exhaustion_names_status_witness :
  fst (get_version_json_data (sample_config 1 1)
         (always (respond 503 Malformed)) initial)
  = Raise (CheckBuildException "Invalid web response status code: 503")
  /\ calls (snd (get_version_json_data (sample_config 1 1)
                   (always (respond 503 Malformed)) initial)) = 3%nat.
Proof.
  apply (fetch_exhaustion_names_status (sample_config 1 1)
           (always (respond 503 Malformed)) initial
           {| status_code := 503; text := Malformed |}
           {| status_code := 503; text := Malformed |}
           {| status_code := 503; text := Malformed |});
    solve [reflexivity | simpl; lia].
Defined.

(** X4: when the three attempts of the first check are answered with a
    status other than 200, [determine_build_quality] returns
    CHECK_BUILD_ERROR (101). *)
Theorem exhausted_retries_are_check_error
    (self : CheckBuildStatus) (net : nat -> http_outcome) (st : state)
    (r0 r1 r2 : Response) :
  1 <= num_checks self ->
  net (calls st) = Responds r0 -> status_code r0 <> 200 ->
  net (S (calls st)) = Responds r1 -> status_code r1 <> 200 ->
  net (S (S (calls st))) = Responds r2 -> status_code r2 <> 200 ->
  fst (determine_build_quality self net st) = Ok CHECK_BUILD_ERROR.
Proof.
  intros Hn H0 Hs0 H1 Hs1 H2 Hs2.
  set (st0 := snd (emit (LogCheck 1 (num_checks self)) st)).
  destruct (get_version_json_data_exhausted self net st0 r0 r1 r2
              H0 Hs0 H1 Hs1 H2 Hs2) as [Hfetch _].
  destruct (get_version_json_data self net st0) as [r st1] eqn:E.
  cbn [fst] in Hfetch. subst r.
  rewrite (determine_build_quality_first_raise self net st st1
             (CheckBuildException
                ("Invalid web response status code: "
                   ++ format_int (status_code r2))%string) Hn).
  - reflexivity.
  - fold st0. now rewrite get_version_status_unfold, E.
Qed.

Lemma exhausted_retries_are_check_error_witness :
  fst (determine_build_quality (sample_config 2 1)
         (always (respond 503 Malformed)) initial)
  = Ok 101.
Proof.
  apply (exhausted_retries_are_check_error (sample_config 2 1)
           (always (respond 503 Malformed)) initial
           {| status_code := 503; text := Malformed |}
           {| status_code := 503; text := Malformed |}
           {| status_code := 503; text := Malformed |});
    solve [reflexivity | simpl; lia].
Defined.

(** X5: with an acceptable access token and code version, [validate_input]
    raises its environment error if and only if the environment stripped of
    '.', '-' and '_' is not alphanumeric or is longer than 200 characters;
    'prod-1.env_a' passes and 'prod#1' does not. *)
Theorem environment_validation
    (U : N -> bool) (tok cv env : pystr) (thr nc cs : Z) :
  isalnum U tok && (len tok =? 32) = true ->
  len cv <= 200 ->
  (validate_input U tok cv env thr nc cs
   = Raise (ValueError "The environment argument is not valid")
   <-> isalnum U (replace "_" (replace "-" (replace "." env)))
       && (len (replace "_" (replace "-" (replace "." env))) <=? 200)
       = false)
  /\ validate_input U tok cv (py "prod-1.env_a") 0 1 1 = Ok tt
  /\ validate_input U tok cv (py "prod#1") 0 1 1
     = Raise (ValueError "The environment argument is not valid").
Proof.
  intros Htok Hcv.
  assert (Hcv' : (200 <? len cv) = false) by (apply Z.ltb_ge; lia).
  rewrite (validate_input_token U tok cv env),
    (validate_input_token U tok cv (py "prod-1.env_a")),
    (validate_input_token U tok cv (py "prod#1")), Htok.
  unfold validate_input.
  destruct (sample_token_valid U) as [-> ->].
  rewrite Hcv'. cbn [negb orb Z.eqb Pos.eqb].
  split; [|split; reflexivity].
  set (stripped := replace "_" (replace "-" (replace "." env))).
  rewrite Z.leb_antisym.
  destruct (isalnum U stripped), (200 <? len stripped); cbn [negb orb andb];
    try (split; reflexivity).
  split; [|discriminate].
  repeat match goal with
         | |- context [if ?b then _ else _] => destruct b
         end; discriminate.
Qed.

Lemma environment_validation_witness :
  validate_input (fun _ => false) sample_token (py "1a2b3c")
    (py "prod-1.env_a") 0 1 1 = Ok tt.
Proof.
  refine (proj1 (proj2 (environment_validation (fun _ => false) sample_token
                          (py "1a2b3c") (py "prod#1") 0 1 1 _ _))).
  - reflexivity.
  - vm_compute. discriminate.
Defined.

(* ===================================================================== *)
(** ** The whole of the validation and the script body *)
(* ===================================================================== *)

Lemma validate_input_raises
    (U : N -> bool) (tok cv env : pystr) (thr nc cs : Z) (e : exn) :
  validate_input U tok cv env thr nc cs = Raise e ->
  exists msg, e = ValueError msg.
Proof.
  unfold validate_input.
  repeat match goal with
         | |- context [if ?b then _ else _] => destruct b
         end;
    intros [= <-] || discriminate; eexists; reflexivity.
Qed.

(** X6: [validate_input] accepts its six arguments if and only if the
    token is alphanumeric of length 32, the code version has at most 200
    characters (of any kind, none included), the stripped environment is
    alphanumeric and has at most 200 characters, the threshold is not
    negative, and the number of checks and the seconds are at least 1. *)
Theorem validate_input_accepts_iff
    (U : N -> bool) (tok cv env : pystr) (thr nc cs : Z) :
  validate_input U tok cv env thr nc cs = Ok tt
  <-> isalnum U tok = true /\ len tok = 32
      /\ len cv <= 200
      /\ isalnum U (stripped env) = true /\ len (stripped env) <= 200
      /\ 0 <= thr /\ 1 <= nc /\ 1 <= cs.
Proof.
  unfold validate_input, stripped.
  destruct (isalnum U tok);
    destruct (Z.eqb_spec (len tok) 32);
    destruct (Z.ltb_spec 200 (len cv));
    destruct (isalnum U (replace "_" (replace "-" (replace "." env))));
    destruct (Z.ltb_spec 200
                (len (replace "_" (replace "-" (replace "." env)))));
    destruct (Z.ltb_spec thr 0);
    destruct (Z.ltb_spec nc 1);
    destruct (Z.ltb_spec cs 1);
    cbn [negb orb];
    (split;
     [ intros Hv; try discriminate Hv; repeat split; solve [reflexivity | lia]
     | intros (Hv1 & Hv2 & Hv3 & Hv4 & Hv5 & Hv6 & Hv7 & Hv8);
       solve [reflexivity | discriminate | lia] ]).
Qed.

Lemma stripped_separator (c : N) (env : pystr) :
  In c (py ".-_") -> stripped (c :: env) = stripped env.
Proof.
  cbn. intros [<-|[<-|[<-|[]]]]; reflexivity.
Qed.

Lemma stripped_separators (env : pystr) :
  (forall c, In c env -> In c (py ".-_")) -> stripped env = [].
Proof.
  induction env as [|c env IH]; intros H; [reflexivity|].
  rewrite stripped_separator by (apply H; now left).
  apply IH. intros c' Hc'. apply H. now right.
Qed.

(** X7: an environment made only of the characters '.', '-' and '_' (the
    empty environment included) is rejected with the environment error,
    although each of its characters is allowed: nothing is left of it to
    be alphanumeric. *)
Theorem separators_only_environment_rejected
    (U : N -> bool) (tok cv env : pystr) (thr nc cs : Z) :
  isalnum U tok && (len tok =? 32) = true ->
  len cv <= 200 ->
  (forall c, In c env -> In c (py ".-_")) ->
  validate_input U tok cv env thr nc cs
  = Raise (ValueError "The environment argument is not valid").
Proof.
  intros Htok Hcv Henv.
  apply andb_prop in Htok. destruct Htok as [Ht1 Ht2].
  assert (Hcv' : (200 <? len cv) = false) by (apply Z.ltb_ge; lia).
  unfold validate_input. fold (stripped env).
  rewrite Ht1, Ht2, Hcv', (stripped_separators env Henv). reflexivity.
Qed.

Lemma separators_only_environment_rejected_witness :
  validate_input (fun _ => true) sample_token (py "") (py "._-") 0 1 1
  = Raise (ValueError "The environment argument is not valid").
Proof.
  apply (separators_only_environment_rejected (fun _ => true) sample_token
           (py "") (py "._-") 0 1 1).
  - reflexivity.
  - vm_compute. discriminate.
  - cbn. intros c [<-|[<-|[<-|[]]]]; tauto.
Defined.

Lemma determine_build_quality_code
    (self : CheckBuildStatus) (net : nat -> http_outcome) (st : state) :
  exists (status : Z) (st' : state),
    determine_build_quality self net st = (Ok status, st')
    /\ In status status_codes.
Proof.
  unfold determine_build_quality.
  pose proof (check_loop_status_codes self net (Z.to_nat (num_checks self))
                0 GENERAL_ERROR st) as H.
  destruct (check_loop self net (Z.to_nat (num_checks self)) 0 GENERAL_ERROR st)
    as [[status [u|e]] st'].
  - exists status, st'. split; [reflexivity|]. apply H. cbn. tauto.
  - destruct (is_CheckBuildException e).
    + eexists _, _. split; [reflexivity|]. cbn. tauto.
    + eexists _, _. split; [reflexivity|]. apply H. cbn. tauto.
Qed.

(** X8: the script body either raises the [ValueError] of [validate_input]
    with the state untouched (nothing logged, no request made), or the
    arguments are valid and it returns one of the six codes 0, 1, 2, 3,
    100, 101 as the exit status; it raises nothing else. *)
Theorem main_outcomes
    (U : N -> bool) (net : nat -> http_outcome)
    (tok cv env : pystr) (thr nc cs : Z) (st : state) :
  (exists msg,
     validate_input U tok cv env thr nc cs = Raise (ValueError msg)
     /\ main U net tok cv env thr nc cs st = (Raise (ValueError msg), st))
  \/ (exists status st',
        validate_input U tok cv env thr nc cs = Ok tt
        /\ main U net tok cv env thr nc cs st = (Ok status, st')
        /\ In status [0; 1; 2; 3; 100; 101]).
Proof.
  unfold main, init, bind, lift.
  destruct (validate_input U tok cv env thr nc cs) as [[]|e] eqn:E.
  - right. cbn.
    match goal with
    | |- context [determine_build_quality ?c net ?s] =>
        destruct (determine_build_quality_code c net s)
          as (status & st' & -> & Hin)
    end.
    exists status, st'. repeat split. exact Hin.
  - left. destruct (validate_input_raises _ _ _ _ _ _ _ _ E) as [msg ->].
    exists msg. now split.
Qed.

(* ===================================================================== *)
(** ** Edge cases of the totals and of the status *)
(* ===================================================================== *)

(** X9: for non-negative integer totals and a non-negative threshold, the
    status is SUCCESS if and only if new + reactivated is at most
    [item_threshold] (the rule stated in the docstring of [__init__]). *)
Theorem success_iff_within_threshold
    (self : CheckBuildStatus) (st : state) (n r : Z) (p q : pyval) :
  0 <= item_threshold self -> 0 <= n -> 0 <= r ->
  item_totals st = Some {| new := PInt n; reactivated := PInt r;
                           repeated := p; resolved := q |} ->
  (calculate_status self st = (Ok SUCCESS, st)
   <-> n + r <= item_threshold self).
Proof.
  intros Ht Hn Hr Hst.
  unfold calculate_status, bind, read_item_totals, lift.
  rewrite Hst, status_of_ints.
  destruct (Z.gtb_spec (n + r) (item_threshold self));
    destruct (Z.gtb_spec n 0); destruct (Z.gtb_spec r 0);
    cbn [andb];
    (split;
     [ intros Hs; first [lia | exfalso; vm_compute in Hs; discriminate Hs]
     | intros Hle; first [reflexivity | lia] ]).
Qed.

Lemma success_iff_within_threshold_witness :
  calculate_status
    {| access_token := sample_token; code_version := py "1a2b3c";
       environment := py "production"; item_threshold := 4;
       num_checks := 1; check_seconds := 1 |}
    {| calls := 1; trace := [];
       item_totals := Some {| new := PInt 3; reactivated := PInt 1;
                              repeated := PInt 9; resolved := PInt 0 |} |}
  = (Ok SUCCESS,
     {| calls := 1; trace := [];
        item_totals := Some {| new := PInt 3; reactivated := PInt 1;
                               repeated := PInt 9; resolved := PInt 0 |} |}).
Proof.
  apply (success_iff_within_threshold _ _ 3 1 (PInt 9) (PInt 0));
    solve [reflexivity | simpl; lia].
Defined.

(** X10: counts that arrive as JSON strings are not rejected when they are
    summed: [get_error_and_higher_count] concatenates them.  The failure
    comes later: whenever the new or the reactivated total is not a number,
    [calculate_status] raises [TypeError] and leaves the state as it was. *)
Theorem non_numeric_totals_raise_type_error
    (self : CheckBuildStatus) (st : state) (t : ItemTotals) :
  item_totals st = Some t ->
  is_number (new t) = false \/ is_number (reactivated t) = false ->
  calculate_status self st = (Raise TypeError, st)
  /\ (forall (d : list (string * pyval)) (a b : string),
        dict_get d "error" = Some (PStr a) ->
        dict_get d "critical" = Some (PStr b) ->
        get_error_and_higher_count (PDict d) = Ok (PStr (a ++ b))).
Proof.
  intros Hst Hnum. split.
  - unfold calculate_status, bind, read_item_totals, lift, status_of.
    rewrite Hst. destruct t as [n r p q]. cbn [new reactivated] in *.
    destruct n, r; cbn in Hnum |- *;
      destruct Hnum as [Hnum|Hnum]; try discriminate Hnum; reflexivity.
  - intros d a b Ha Hb. unfold get_error_and_higher_count, py_getitem.
    now rewrite Ha, Hb.
Qed.

Lemma non_numeric_totals_raise_type_error_witness :
  calculate_status (sample_config 1 1)
    {| calls := 1; trace := [];
       item_totals := Some {| new := PStr "21"; reactivated := PInt 0;
                              repeated := PInt 0; resolved := PInt 0 |} |}
  = (Raise TypeError,
     {| calls := 1; trace := [];
        item_totals := Some {| new := PStr "21"; reactivated := PInt 0;
                               repeated := PInt 0; resolved := PInt 0 |} |}).
Proof.
  refine (proj1 (non_numeric_totals_raise_type_error (sample_config 1 1) _
                   {| new := PStr "21"; reactivated := PInt 0;
                      repeated := PInt 0; resolved := PInt 0 |} _ _)).
  - reflexivity.
  - left. reflexivity.
Defined.

(** X11: [calculate_item_totals] touches nothing but [self.item_totals]:
    the trace and the request count stay as they were; and when it raises,
    the whole state does, so the totals of the check before are kept, and
    the exception is not a [CheckBuildException]. *)
Theorem calculate_item_totals_frame (b : body) (st : state) :
  calls (snd (calculate_item_totals b st)) = calls st
  /\ trace (snd (calculate_item_totals b st)) = trace st
  /\ (forall e, fst (calculate_item_totals b st) = Raise e ->
       snd (calculate_item_totals b st) = st
       /\ is_CheckBuildException e = false).
Proof.
  split; [|split].
  - unfold calculate_item_totals, bind, lift, json_loads.
    destruct b as [|v]; [reflexivity|].
    repeat step_totals; reflexivity.
  - apply calculate_item_totals_trace.
  - intros e He.
    destruct (calculate_item_totals b st) as [r st'] eqn:E.
    cbn [fst snd] in *. subst r.
    destruct (calculate_item_totals_raises _ _ _ _ E) as [H1 H2].
    now split.
Qed.

(** X12: a document that lacks a key is reported by the [KeyError] of the
    first key missed, in the order result, item_stats, then the category
    with its error and critical fields; a document that is not an object is
    reported by [TypeError]. *)
Theorem missing_keys_are_key_errors (st : state) :
  (forall d, dict_get d "result" = None ->
     calculate_item_totals (Document (PDict d)) st
     = (Raise (KeyError "result"), st))
  /\ (forall v, (forall d, v <> PDict d) ->
       calculate_item_totals (Document v) st = (Raise TypeError, st))
  /\ (forall v d, py_getitem v "result" = Ok (PDict d) ->
       dict_get d "item_stats" = None ->
       calculate_item_totals (Document v) st
       = (Raise (KeyError "item_stats"), st))
  /\ (forall v result d, py_getitem v "result" = Ok result ->
       py_getitem result "item_stats" = Ok (PDict d) ->
       dict_get d "new" = None ->
       calculate_item_totals (Document v) st = (Raise (KeyError "new"), st))
  /\ (forall c, dict_get c "error" = None ->
       get_error_and_higher_count (PDict c) = Raise (KeyError "error"))
  /\ (forall c x, dict_get c "error" = Some x ->
       dict_get c "critical" = None ->
       get_error_and_higher_count (PDict c) = Raise (KeyError "critical")).
Proof.
  unfold calculate_item_totals, get_error_and_higher_count, bind, lift,
    json_loads.
  repeat split.
  - intros d H. cbn. now rewrite H.
  - intros v H. destruct v; try reflexivity. now destruct (H d).
  - intros v d H1 H2. rewrite H1. cbn. now rewrite H2.
  - intros v result d H1 H2 H3. rewrite H1, H2. cbn. now rewrite H3.
  - intros c H. cbn. now rewrite H.
  - intros c x H1 H2. cbn. now rewrite H1, H2.
Qed.

(** When [calculate_item_totals] returns, the body was a document with
    the three levels of keys, and what it stored are the four category
    totals of that document. *)
Lemma calculate_item_totals_stores (b : body) (st st2 : state) (u : unit) :
  calculate_item_totals b st = (Ok u, st2) ->
  exists (json_data result item_stats : pyval) (t : ItemTotals),
    b = Document json_data
    /\ py_getitem json_data "result" = Ok result
    /\ py_getitem result "item_stats" = Ok item_stats
    /\ category_total item_stats "new" = Ok (new t)
    /\ category_total item_stats "reactivated" = Ok (reactivated t)
    /\ category_total item_stats "repeated" = Ok (repeated t)
    /\ category_total item_stats "resolved" = Ok (resolved t)
    /\ st2 = {| calls := calls st; trace := trace st;
                item_totals := Some t |}.
Proof.
  unfold calculate_item_totals, bind, lift, json_loads.
  destruct b as [|v]; [discriminate|].
  repeat step_totals; try discriminate.
  destruct u. intros H. injection H as <-.
  eexists v, _, _, (Build_ItemTotals _ _ _ _).
  split; [reflexivity|]. split; [eassumption|]. split; [eassumption|].
  unfold category_total. cbn [new reactivated repeated resolved].
  repeat match goal with
         | |- _ /\ _ => split
         | H : py_getitem ?x ?k = Ok _
           |- match py_getitem ?x ?k with _ => _ end = _ =>
             rewrite H; eassumption
         end.
  reflexivity.
Qed.

(** X13: a check that returns a status [s] fetched a body that is a JSON
    document with the keys result and item_stats; the totals now stored in
    [self.item_totals] are the four category totals of that very document
    (error plus critical of new, reactivated, repeated and resolved); [s]
    is the status of those totals; and beyond the fetch the check only
    added the two log lines of the totals and of the status. *)
Theorem get_version_status_stores_totals
    (self : CheckBuildStatus) (net : nat -> http_outcome) (st st' : state)
    (s : Z) :
  get_version_status self net st = (Ok s, st') ->
  exists (json_data result item_stats : pyval) (st1 : state)
         (t : ItemTotals),
    get_version_json_data self net st = (Ok (Document json_data), st1)
    /\ py_getitem json_data "result" = Ok result
    /\ py_getitem result "item_stats" = Ok item_stats
    /\ category_total item_stats "new" = Ok (new t)
    /\ category_total item_stats "reactivated" = Ok (reactivated t)
    /\ category_total item_stats "repeated" = Ok (repeated t)
    /\ category_total item_stats "resolved" = Ok (resolved t)
    /\ status_of self t = Ok s
    /\ st' = {| calls := calls st1;
                trace := trace st1 ++ [LogTotals t; LogStatus s];
                item_totals := Some t |}.
Proof.
  rewrite get_version_status_unfold.
  destruct (get_version_json_data self net st) as [[b|e] st1]; [|discriminate].
  destruct (calculate_item_totals b st1) as [[u|e] st2] eqn:Ec;
    [|discriminate].
  destruct (calculate_item_totals_stores _ _ _ _ Ec)
    as (json_data & result & item_stats & t & -> & H1 & H2 & H3 & H4 & H5
        & H6 & ->).
  cbn [item_totals].
  destruct (status_of self t) as [s0|e] eqn:Es; [|discriminate].
  intros [= <- <-].
  exists json_data, result, item_stats, st1, t.
  repeat (split; [assumption || reflexivity|]).
  cbn [snd emit calls trace item_totals]. now rewrite <- app_assoc.
Qed.

Lemma get_version_status_stores_totals_witness :
  exists t : ItemTotals,
    item_totals (snd (get_version_status (sample_config 1 1)
                        (always (respond 200 (Document (stats_document 2 0))))
                        initial)) = Some t
    /\ status_of (sample_config 1 1) t = Ok NEW_ITEMS.
Proof.
  destruct (get_version_status_stores_totals (sample_config 1 1)
              (always (respond 200 (Document (stats_document 2 0))))
              initial
              (snd (get_version_status (sample_config 1 1)
                      (always (respond 200 (Document (stats_document 2 0))))
                      initial))
              NEW_ITEMS eq_refl)
    as (jd & res & stats & st1 & t & _ & _ & _ & _ & _ & _ & _ & Hs & Hst).
  exists t. rewrite Hst. split; [reflexivity | exact Hs].
Defined.

(* ===================================================================== *)
(** ** Resources of a run: requests and sleeping time *)
(* ===================================================================== *)

Lemma slept_app (l m : list event) : slept (l ++ m) = slept l + slept m.
Proof.
  unfold slept, sleeps. induction l as [|ev l IH]; [reflexivity|].
  cbn [app flat_map]. rewrite fold_right_app. fold (sleeps (l ++ m)).
  unfold sleeps in *. rewrite IH. rewrite fold_right_app.
  destruct ev; cbn; lia.
Qed.

Lemma request_loop_slept
    (self : CheckBuildStatus) (net : nat -> http_outcome) (n : nat) :
  forall (resp : option Response) (st : state),
    slept (trace st) <= slept (trace (snd (request_loop self net n resp st)))
    <= slept (trace st) + 3 * Z.of_nat n.
Proof.
  induction n as [|n IH]; intros resp st.
  - cbn [request_loop ret snd]. lia.
  - destruct (net (calls st)) as [r|] eqn:Hnet.
    + destruct (Z.eq_dec (status_code r) 200) as [H200|H200].
      * rewrite (request_loop_200 _ _ _ _ _ _ Hnet H200).
        cbn [snd after_request trace]. rewrite slept_app.
        change (slept (HttpGet _ _ _ :: _)) with 0. lia.
      * rewrite (request_loop_not_200 _ _ _ _ _ _ Hnet H200).
        match goal with
        | |- context [request_loop _ _ n ?x ?s] => specialize (IH x s)
        end.
        cbn [after_request trace] in IH. rewrite slept_app in IH.
        change (slept (HttpGet _ _ _ :: _)) with 3 in IH. lia.
    + rewrite (request_loop_fails _ _ _ _ _ Hnet).
      cbn [snd after_request trace]. rewrite slept_app.
      change (slept (HttpGet _ _ _ :: _)) with 0. lia.
Qed.

Lemma request_loop_makes_a_request
    (self : CheckBuildStatus) (net : nat -> http_outcome) (n : nat)
    (resp : option Response) (st : state) :
  (calls st < calls (snd (request_loop self net (S n) resp st)))%nat.
Proof.
  destruct (net (calls st)) as [r|] eqn:Hnet.
  - destruct (Z.eq_dec (status_code r) 200) as [H200|H200].
    + rewrite (request_loop_200 _ _ _ _ _ _ Hnet H200). cbn. lia.
    + rewrite (request_loop_not_200 _ _ _ _ _ _ Hnet H200).
      match goal with
      | |- context [request_loop _ _ n ?x ?s] =>
          pose proof (request_loop_calls self net n x s) as H
      end.
      cbn [calls after_request] in H. lia.
  - rewrite (request_loop_fails _ _ _ _ _ Hnet). cbn. lia.
Qed.

Lemma calculate_item_totals_calls (b : body) (st : state) :
  calls (snd (calculate_item_totals b st)) = calls st.
Proof.
  unfold calculate_item_totals, bind, lift, json_loads.
  destruct b as [|v]; [reflexivity|].
  repeat step_totals; reflexivity.
Qed.

(** One check makes between 1 and 3 requests and sleeps at most 9
    seconds. *)
Lemma get_version_status_resources
    (self : CheckBuildStatus) (net : nat -> http_outcome) (st : state) :
  (calls st < calls (snd (get_version_status self net st))
   <= calls st + 3)%nat
  /\ slept (trace st) <= slept (trace (snd (get_version_status self net st)))
     <= slept (trace st) + 9.
Proof.
  rewrite get_version_status_unfold, get_version_json_data_unfold.
  pose proof (request_loop_calls self net 3 None st) as Hc.
  pose proof (request_loop_makes_a_request self net 2 None st) as Hc'.
  pose proof (request_loop_slept self net 3 None st) as Hs.
  destruct (request_loop self net 3 None st) as [[[r|]|e] st1];
    cbn [snd] in Hc, Hc', Hs; try (cbn [snd]; lia).
  destruct (negb (status_code r =? 200)); [cbn [snd]; lia|].
  pose proof (calculate_item_totals_calls (text r) st1) as Hc2.
  pose proof (calculate_item_totals_trace (text r) st1) as Hs2.
  destruct (calculate_item_totals (text r) st1) as [[u|e] st2];
    cbn [snd] in Hc2, Hs2; [|cbn [snd]; rewrite Hs2; lia].
  destruct (item_totals st2) as [t|]; [|cbn [snd]; rewrite Hs2; lia].
  destruct (status_of self t); cbn [snd emit calls trace];
    rewrite ?slept_app, Hs2;
    change (slept [LogTotals t]) with 0;
    try change (slept [LogStatus a]) with 0; lia.
Qed.

Ltac drop_premise :=
  match goal with
  | |- _ <> _ -> _ => intros _
  | _ => idtac
  end.

Lemma check_loop_resources
    (self : CheckBuildStatus) (net : nat -> http_outcome) (n : nat) :
  0 <= check_seconds self ->
  forall (i s : Z) (st : state),
    (calls st <= calls (snd (check_loop self net n i s st))
     <= calls st + 3 * n)%nat
    /\ (n <> 0%nat -> (calls st < calls (snd (check_loop self net n i s st)))%nat)
    /\ slept (trace st) <= slept (trace (snd (check_loop self net n i s st)))
       <= slept (trace st) + Z.of_nat n * (9 + check_seconds self).
Proof.
  intros Hcs. induction n as [|n IH]; intros i s st.
  - cbn [check_loop snd]. repeat split; lia.
  - assert (Hpos : 0 <= Z.of_nat n * (9 + check_seconds self))
      by (apply Z.mul_nonneg_nonneg; lia).
    rewrite Nat2Z.inj_succ, Z.mul_succ_l.
    cbn [check_loop]. rewrite loop_iteration_state.
    set (st0 := snd (emit (LogCheck (i + 1) (num_checks self)) st)).
    assert (Hc0 : calls st0 = calls st) by reflexivity.
    assert (Hs0 : slept (trace st0) = slept (trace st)).
    { unfold st0. cbn [snd emit trace]. rewrite slept_app.
      change (slept [LogCheck (i + 1) (num_checks self)]) with 0. lia. }
    pose proof (get_version_status_resources self net st0) as H.
    clearbody st0.
    destruct (get_version_status self net st0) as [[s'|e] st1];
      cbn [snd] in H; [|cbn [snd]; repeat split; drop_premise; lia].
    destruct (s' =? SUCCESS); [|cbn [snd]; repeat split; drop_premise; lia].
    unfold sleep. destruct (Z.ltb_spec (check_seconds self) 0); [lia|].
    destruct (sleep_max <? check_seconds self);
      [cbn [raise snd]; repeat split; drop_premise; lia|].
    unfold emit. cbv iota beta.
    match goal with
    | |- context [check_loop _ _ n ?j ?x ?y] => specialize (IH j x y)
    end.
    cbn [calls trace] in IH. rewrite slept_app in IH.
    change (slept [Sleep (check_seconds self)])
      with (check_seconds self + 0) in IH.
    repeat split; drop_premise; lia.
Qed.

(** X14: a run of [determine_build_quality] makes at least one request when
    [num_checks] is at least 1, and never more than 3 requests per check:
    at most [3 * num_checks] in all. *)
Theorem determine_build_quality_requests
    (self : CheckBuildStatus) (net : nat -> http_outcome) (st : state) :
  1 <= num_checks self -> 0 <= check_seconds self ->
  (calls st < calls (snd (determine_build_quality self net st))
   <= calls st + 3 * Z.to_nat (num_checks self))%nat.
Proof.
  intros Hn Hcs. unfold determine_build_quality.
  destruct (check_loop_resources self net (Z.to_nat (num_checks self)) Hcs
              0 GENERAL_ERROR st) as (H1 & H2 & _).
  destruct (check_loop self net (Z.to_nat (num_checks self)) 0 GENERAL_ERROR st)
    as [[status [u|e]] st']; cbn [snd] in H1, H2 |- *.
  - lia.
  - destruct (is_CheckBuildException e); cbn; lia.
Qed.

Lemma determine_build_quality_requests_witness :
  (0 < calls (snd (determine_build_quality (sample_config 2 5)
                     (always (respond 503 Malformed)) initial))
   <= 6)%nat.
Proof.
  apply (determine_build_quality_requests (sample_config 2 5)
           (always (respond 503 Malformed)) initial); simpl; lia.
Defined.

(** X15: a run of [determine_build_quality] sleeps, in total, at most
    [num_checks * (9 + check_seconds)] seconds: up to three retry delays of
    3 seconds and one delay of [check_seconds] per check. *)
Theorem determine_build_quality_sleeping_time
    (self : CheckBuildStatus) (net : nat -> http_outcome) (st : state) :
  1 <= num_checks self -> 0 <= check_seconds self ->
  slept (trace (snd (determine_build_quality self net st)))
  <= slept (trace st) + num_checks self * (9 + check_seconds self).
Proof.
  intros Hn Hcs. unfold determine_build_quality.
  destruct (check_loop_resources self net (Z.to_nat (num_checks self)) Hcs
              0 GENERAL_ERROR st) as (_ & _ & H).
  rewrite Z2Nat.id in H by lia.
  destruct (check_loop self net (Z.to_nat (num_checks self)) 0 GENERAL_ERROR st)
    as [[status [u|e]] st']; cbn [snd] in H |- *.
  - lia.
  - destruct (is_CheckBuildException e); cbn [bind emit ret snd trace];
      rewrite slept_app; change (slept [LogError _]) with 0; lia.
Qed.

Lemma determine_build_quality_sleeping_time_witness :
  slept (trace (snd (determine_build_quality (sample_config 2 5)
                       (always (respond 503 Malformed)) initial)))
  <= 28.
Proof.
  apply (determine_build_quality_sleeping_time (sample_config 2 5)
           (always (respond 503 Malformed)) initial); simpl; lia.
Defined.

(* ===================================================================== *)
(** ** What a run sends and how long its sleeps are *)
(* ===================================================================== *)

Lemma request_loop_emitted
    (self : CheckBuildStatus) (net : nat -> http_outcome) (n : nat) :
  forall (resp : option Response) (st : state),
  exists F : list event,
    trace (snd (request_loop self net n resp st)) = trace st ++ F
    /\ Forall (emitted self) F.
Proof.
  induction n as [|n IH]; intros resp st.
  - exists []. cbn. now rewrite app_nil_r.
  - destruct (net (calls st)) as [r|] eqn:Hnet.
    + destruct (Z.eq_dec (status_code r) 200) as [H200|H200].
      * rewrite (request_loop_200 _ _ _ _ _ _ Hnet H200).
        eexists. split; [reflexivity | repeat constructor].
      * rewrite (request_loop_not_200 _ _ _ _ _ _ Hnet H200).
        match goal with
        | |- context [request_loop _ _ n ?x ?s] =>
            destruct (IH x s) as (F & -> & HF)
        end.
        cbn [trace after_request]. rewrite app_cons_assoc.
        eexists. split; [reflexivity|].
        repeat (constructor; [constructor|]). exact HF.
    + rewrite (request_loop_fails _ _ _ _ _ Hnet).
      eexists. split; [reflexivity | repeat constructor].
Qed.

Lemma get_version_status_emitted
    (self : CheckBuildStatus) (net : nat -> http_outcome) (st : state) :
  exists F : list event,
    trace (snd (get_version_status self net st)) = trace st ++ F
    /\ Forall (emitted self) F.
Proof.
  rewrite get_version_status_unfold, get_version_json_data_unfold.
  destruct (request_loop_emitted self net 3 None st) as (F & HF & HE).
  destruct (request_loop self net 3 None st) as [[[r|]|e] st1];
    cbn [snd] in HF; try (exists F; now split).
  destruct (negb (status_code r =? 200)); [exists F; now split|].
  pose proof (calculate_item_totals_trace (text r) st1) as Hc.
  destruct (calculate_item_totals (text r) st1) as [[u|e] st2];
    cbn [snd] in Hc;
    [|exists F; split; [cbn [snd]; rewrite Hc; exact HF | exact HE]].
  destruct (item_totals st2) as [t|];
    [|exists F; split; [cbn [snd]; rewrite Hc; exact HF | exact HE]].
  destruct (status_of self t) as [s|e]; cbn [snd emit trace]; rewrite Hc, HF.
  - exists (F ++ [LogTotals t; LogStatus s]). split.
    + now rewrite <- !app_assoc.
    + apply Forall_app. split; [exact HE | repeat constructor].
  - exists (F ++ [LogTotals t]). split.
    + now rewrite <- !app_assoc.
    + apply Forall_app. split; [exact HE | repeat constructor].
Qed.

Lemma check_loop_emitted
    (self : CheckBuildStatus) (net : nat -> http_outcome) (n : nat) :
  forall (i s : Z) (st : state),
  exists d : list event,
    trace (snd (check_loop self net n i s st)) = trace st ++ d
    /\ Forall (emitted self) d.
Proof.
  induction n as [|n IH]; intros i s st.
  - exists []. cbn. now rewrite app_nil_r.
  - cbn [check_loop]. rewrite loop_iteration_state.
    set (st0 := snd (emit (LogCheck (i + 1) (num_checks self)) st)).
    destruct (get_version_status_emitted self net st0) as (F & HF & HE).
    assert (H0 : trace st0 = trace st ++ [LogCheck (i + 1) (num_checks self)])
      by reflexivity.
    clearbody st0.
    destruct (get_version_status self net st0) as [[s'|e] st1];
      cbn [snd] in HF.
    + destruct (s' =? SUCCESS).
      * unfold sleep.
        destruct (check_seconds self <? 0);
          [|destruct (sleep_max <? check_seconds self)].
        -- exists (LogCheck (i + 1) (num_checks self) :: F). cbn [snd raise].
           split; [now rewrite HF, H0, <- app_assoc|].
           constructor; [constructor | exact HE].
        -- exists (LogCheck (i + 1) (num_checks self) :: F). cbn [snd raise].
           split; [now rewrite HF, H0, <- app_assoc|].
           constructor; [constructor | exact HE].
        -- unfold emit. cbv iota beta.
           match goal with
           | |- context [check_loop _ _ n ?j ?x ?y] =>
               destruct (IH j x y) as (d & -> & Hd)
           end.
           cbn [trace].
           exists (LogCheck (i + 1) (num_checks self)
                     :: F ++ Sleep (check_seconds self) :: d).
           split; [rewrite HF, H0, <- !app_assoc; reflexivity|].
           constructor; [constructor|].
           apply Forall_app. split; [exact HE|].
           constructor; [constructor | exact Hd].
      * exists (LogCheck (i + 1) (num_checks self) :: F). cbn [snd].
        split; [now rewrite HF, H0, <- app_assoc|].
        constructor; [constructor | exact HE].
    + exists (LogCheck (i + 1) (num_checks self) :: F). cbn [snd].
      split; [now rewrite HF, H0, <- app_assoc|].
      constructor; [constructor | exact HE].
Qed.

(** X16: every request made during [determine_build_quality] carries the
    code version, the environment and the access token of the
    configuration, and every sleep lasts 3 seconds (between attempts) or
    [check_seconds] (between checks); no other delay is ever taken. *)
Theorem requests_and_sleeps_as_configured
    (self : CheckBuildStatus) (net : nat -> http_outcome) (st : state) :
  exists delta : list event,
    trace (snd (determine_build_quality self net st)) = trace st ++ delta
    /\ (forall a b c : pystr,
          In (HttpGet a b c) delta ->
          a = code_version self /\ b = environment self
          /\ c = access_token self)
    /\ (forall secs : Z,
          In (Sleep secs) delta -> secs = 3 \/ secs = check_seconds self).
Proof.
  assert (H : exists delta : list event,
            trace (snd (determine_build_quality self net st))
            = trace st ++ delta
            /\ Forall (emitted self) delta).
  { unfold determine_build_quality.
    destruct (check_loop_emitted self net (Z.to_nat (num_checks self))
                0 GENERAL_ERROR st) as (d & Hd & HE).
    destruct (check_loop self net (Z.to_nat (num_checks self)) 0
                GENERAL_ERROR st) as [[status [u|e]] st']; cbn [snd] in Hd.
    - exists d. now split.
    - destruct (is_CheckBuildException e); cbn [bind emit ret snd trace];
        eexists (d ++ [_]);
        (split; [now rewrite Hd, <- app_assoc|]);
        apply Forall_app; (split; [exact HE | repeat constructor]). }
  destruct H as (delta & Hdelta & HE). exists delta.
  rewrite Forall_forall in HE.
  split; [exact Hdelta|]. split.
  - intros a b c Hin. apply HE in Hin. inversion Hin. now subst.
  - intros secs Hin. apply HE in Hin. inversion Hin; [now left | now right].
Qed.

(* ===================================================================== *)
(** ** Runs in which every request is answered with status 200 *)
(* ===================================================================== *)

Lemma sleeps_app (l m : list event) : sleeps (l ++ m) = sleeps l ++ sleeps m.
Proof. apply flat_map_app. Qed.

Lemma py_gt_int_raises (v : pyval) (z : Z) (e : exn) :
  py_gt_int v z = Raise e -> is_CheckBuildException e = false.
Proof.
  unfold py_gt_int. destruct v; cbn; try discriminate;
    intros [= <-]; reflexivity.
Qed.

Lemma py_and_raises (a b : result bool) (e : exn) :
  (forall e', a = Raise e' -> is_CheckBuildException e' = false) ->
  (forall e', b = Raise e' -> is_CheckBuildException e' = false) ->
  py_and a b = Raise e -> is_CheckBuildException e = false.
Proof.
  intros Ha Hb. unfold py_and. destruct a as [[]|ea].
  - apply Hb.
  - discriminate.
  - intros [= <-]. now apply Ha.
Qed.

Lemma status_of_raises (self : CheckBuildStatus) (t : ItemTotals) (e : exn) :
  status_of self t = Raise e -> is_CheckBuildException e = false.
Proof.
  unfold status_of.
  destruct (py_add (new t) (reactivated t)) as [total|e0] eqn:E0.
  - destruct (py_and (py_gt_int total _) (py_gt_int (new t) 0))
      as [c1|e1] eqn:E1.
    + destruct (py_and (py_gt_int total _) (py_gt_int (reactivated t) 0))
        as [c2|e2] eqn:E2; [discriminate|].
      intros [= <-]. revert E2.
      apply py_and_raises; intros e'; apply py_gt_int_raises.
    + intros [= <-]. revert E1.
      apply py_and_raises; intros e'; apply py_gt_int_raises.
  - intros [= <-]. exact (py_add_raises _ _ _ E0).
Qed.

Lemma calculate_item_totals_from_initial (b : body) (st : state) :
  calculate_item_totals b st
  = match calculate_item_totals b initial with
    | (Ok _, s0) =>
        (Ok tt, {| calls := calls st; trace := trace st;
                   item_totals := item_totals s0 |})
    | (Raise e, _) => (Raise e, st)
    end.
Proof.
  unfold calculate_item_totals, bind, lift, json_loads.
  destruct b as [|v]; [reflexivity|].
  repeat step_totals; reflexivity.
Qed.


(** A check whose first attempt is answered with status 200 and body [b]
    yields what [check_of_body] says, after one request and no sleep. *)
Lemma check_with_first_200
    (self : CheckBuildStatus) (net : nat -> http_outcome) (st : state)
    (b : body) :
  net (calls st) = respond 200 b ->
  exists st' : state,
    get_version_status self net st = (check_of_body self b, st')
    /\ calls st' = S (calls st)
    /\ sleeps (trace st') = sleeps (trace st).
Proof.
  intros Hnet.
  rewrite get_version_status_unfold, get_version_json_data_unfold.
  rewrite (request_loop_200 self net 2 None st _ Hnet eq_refl).
  cbn [status_code text negb Z.eqb Pos.eqb].
  rewrite calculate_item_totals_from_initial.
  unfold check_of_body, bind.
  destruct (calculate_item_totals b initial) as [[u|e0] s0].
  - cbn [item_totals fst].
    unfold calculate_status, bind, read_item_totals, lift.
    destruct (item_totals s0) as [t|].
    + destruct (status_of self t) as [s|e]; cbn [fst];
        (eexists; split; [reflexivity|]; split; [reflexivity|]);
        cbn [snd emit trace after_request];
        rewrite !sleeps_app; cbn; now rewrite !app_nil_r.
    + cbn [fst]. eexists. split; [reflexivity|]. split; [reflexivity|].
      cbn [trace after_request]. rewrite sleeps_app. cbn.
      now rewrite app_nil_r.
  - cbn [fst]. eexists. split; [reflexivity|]. split; [reflexivity|].
    cbn [trace after_request]. rewrite sleeps_app. cbn.
    now rewrite app_nil_r.
Qed.

(** The same for one turn of the check loop. *)
Lemma loop_turn_with_first_200
    (self : CheckBuildStatus) (net : nat -> http_outcome) (i : Z) (st : state)
    (b : body) :
  net (calls st) = respond 200 b ->
  exists st' : state,
    (log_check_info self (i + 1) ;; get_version_status self net) st
    = (check_of_body self b, st')
    /\ calls st' = S (calls st)
    /\ sleeps (trace st') = sleeps (trace st).
Proof.
  intros Hnet. rewrite loop_iteration_state.
  destruct (check_with_first_200 self net
              (snd (emit (LogCheck (i + 1) (num_checks self)) st)) b Hnet)
    as (st' & H1 & H2 & H3).
  exists st'. split; [exact H1|]. split; [exact H2|].
  rewrite H3. cbn [snd emit trace]. rewrite sleeps_app. cbn.
  now rewrite app_nil_r.
Qed.








(* ===================================================================== *)
(** ** When CHECK_BUILD_ERROR is returned, and the delays of a fetch *)
(* ===================================================================== *)

(** A fetch raises a [CheckBuildException] only after three attempts that
    were all answered with a status other than 200. *)
Lemma get_version_json_data_check_error
    (self : CheckBuildStatus) (net : nat -> http_outcome) (st st1 : state)
    (e : exn) :
  get_version_json_data self net st = (Raise e, st1) ->
  is_CheckBuildException e = true ->
  calls st1 = (calls st + 3)%nat
  /\ forall j, (j < 3)%nat ->
       exists r, net (calls st + j)%nat = Responds r /\ status_code r <> 200.
Proof.
  intros H He.
  assert (Hfail : forall st0 n resp,
            net (calls st0) = Fails ->
            request_loop self net (S n) resp st0
            = (Raise AttributeError,
               after_request self st0
                 [LogError "Error making request to Rollbar Versions API";
                  PrintUrl]))
    by (intros; now apply request_loop_fails).
  rewrite get_version_json_data_unfold in H.
  destruct (net (calls st)) as [r0|] eqn:H0;
    [|rewrite (Hfail st _ _ H0) in H; injection H as <- _; discriminate He].
  destruct (Z.eq_dec (status_code r0) 200) as [E0|E0];
    [rewrite (request_loop_200 _ _ _ _ _ _ H0 E0), E0 in H; discriminate H|].
  rewrite (request_loop_not_200 _ _ _ _ _ _ H0 E0) in H.
  set (s1 := after_request self st _) in H.
  destruct (net (calls s1)) as [r1|] eqn:H1;
    [|rewrite (Hfail s1 _ _ H1) in H; injection H as <- _; discriminate He].
  destruct (Z.eq_dec (status_code r1) 200) as [E1|E1];
    [rewrite (request_loop_200 _ _ _ _ _ _ H1 E1), E1 in H; discriminate H|].
  rewrite (request_loop_not_200 _ _ _ _ _ _ H1 E1) in H.
  set (s2 := after_request self s1 _) in H.
  destruct (net (calls s2)) as [r2|] eqn:H2;
    [|rewrite (Hfail s2 _ _ H2) in H; injection H as <- _; discriminate He].
  destruct (Z.eq_dec (status_code r2) 200) as [E2|E2];
    [rewrite (request_loop_200 _ _ _ _ _ _ H2 E2), E2 in H; discriminate H|].
  rewrite (request_loop_not_200 _ _ _ _ _ _ H2 E2) in H.
  cbn [request_loop ret] in H.
  destruct (negb (status_code r2 =? 200)); [|discriminate H].
  injection H as _ <-. split; [cbn; lia|].
  intros [|[|[|j]]] Hj; [| | |lia].
  - exists r0. rewrite Nat.add_0_r. now split.
  - exists r1. rewrite Nat.add_1_r. now split.
  - exists r2. replace (calls st + 2)%nat with (S (S (calls st))) by lia.
    now split.
Qed.

Lemma get_version_status_check_error
    (self : CheckBuildStatus) (net : nat -> http_outcome) (st st1 : state)
    (e : exn) :
  get_version_status self net st = (Raise e, st1) ->
  is_CheckBuildException e = true ->
  calls st1 = (calls st + 3)%nat
  /\ forall j, (j < 3)%nat ->
       exists r, net (calls st + j)%nat = Responds r /\ status_code r <> 200.
Proof.
  rewrite get_version_status_unfold.
  destruct (get_version_json_data self net st) as [[b|e0] st0] eqn:E0.
  - destruct (calculate_item_totals b st0) as [[u|e1] st2] eqn:E1.
    + destruct (item_totals st2) as [t|].
      * destruct (status_of self t) as [s|e2] eqn:E2; [discriminate|].
        intros [= <- _] He. rewrite (status_of_raises _ _ _ E2) in He.
        discriminate He.
      * intros [= <- _] He. discriminate He.
    + intros [= <- _] He.
      rewrite (proj1 (calculate_item_totals_raises _ _ _ _ E1)) in He.
      discriminate He.
  - intros [= <- <-] He.
    exact (get_version_json_data_check_error _ _ _ _ _ E0 He).
Qed.

Lemma check_loop_check_error
    (self : CheckBuildStatus) (net : nat -> http_outcome) (n : nat) :
  forall (i s : Z) (st : state) (e : exn),
    snd (fst (check_loop self net n i s st)) = Raise e ->
    is_CheckBuildException e = true ->
    (calls st + 3 <= calls (snd (check_loop self net n i s st)))%nat
    /\ forall j, (j < 3)%nat ->
         exists r,
           net (calls (snd (check_loop self net n i s st)) - 3 + j)%nat
           = Responds r
           /\ status_code r <> 200.
Proof.
  induction n as [|n IH]; intros i s st e; [discriminate|].
  cbn [check_loop]. rewrite loop_iteration_state.
  set (st0 := snd (emit (LogCheck (i + 1) (num_checks self)) st)).
  assert (Hc0 : calls st0 = calls st) by reflexivity.
  pose proof (get_version_status_resources self net st0) as Hres.
  clearbody st0.
  destruct (get_version_status self net st0) as [[s'|e'] st1] eqn:E;
    cbn [snd] in Hres.
  - destruct (s' =? SUCCESS); [|discriminate].
    unfold sleep.
    destruct (check_seconds self <? 0);
      [|destruct (sleep_max <? check_seconds self)].
    + cbn. intros [= <-]. discriminate.
    + cbn. intros [= <-]. discriminate.
    + unfold emit. cbv iota beta. intros He1 He2.
      match goal with
      | |- context [check_loop _ _ n ?j ?x ?y] =>
          destruct (IH j x y e He1 He2) as [H3 Hr]
      end.
      cbn [calls] in H3. split; [lia | exact Hr].
  - cbn [fst snd]. intros [= <-] He.
    destruct (get_version_status_check_error _ _ _ _ _ E He) as [Hc Hr].
    split; [lia|]. intros j Hj.
    replace (calls st1 - 3 + j)%nat with (calls st0 + j)%nat by lia.
    now apply Hr.
Qed.

Lemma check_loop_status_not_check_error
    (self : CheckBuildStatus) (net : nat -> http_outcome) (n : nat) :
  forall (i status : Z) (st : state),
    status <> CHECK_BUILD_ERROR ->
    fst (fst (check_loop self net n i status st)) <> CHECK_BUILD_ERROR.
Proof.
  induction n as [|n IH]; intros i status st Hs; [exact Hs|].
  cbn [check_loop]. rewrite loop_iteration_state.
  destruct (get_version_status self net _) as [[s|e] st1] eqn:E; [|exact Hs].
  assert (Hs' : s <> CHECK_BUILD_ERROR).
  { apply get_version_status_range in E. cbn in E.
    intros ->. intuition discriminate. }
  destruct (s =? SUCCESS); [|exact Hs'].
  destruct (sleep (check_seconds self) st1) as [[u|e] st2]; [|exact Hs'].
  apply IH, Hs'.
Qed.

(** X20: [determine_build_quality] returns CHECK_BUILD_ERROR (101) only
    when the last three requests it made were all answered, each with a
    status other than 200: never after a network failure, a body that does
    not parse, or fewer than three attempts. *)
Theorem check_error_only_after_three_failures
    (self : CheckBuildStatus) (net : nat -> http_outcome) (st : state) :
  fst (determine_build_quality self net st) = Ok CHECK_BUILD_ERROR ->
  (calls st + 3 <= calls (snd (determine_build_quality self net st)))%nat
  /\ forall j, (j < 3)%nat ->
       exists r,
         net (calls (snd (determine_build_quality self net st)) - 3 + j)%nat
         = Responds r
         /\ status_code r <> 200.
Proof.
  unfold determine_build_quality.
  pose proof (check_loop_status_not_check_error self net
                (Z.to_nat (num_checks self)) 0 GENERAL_ERROR st
                ltac:(discriminate)) as Hne.
  pose proof (check_loop_check_error self net (Z.to_nat (num_checks self))
                0 GENERAL_ERROR st) as Hce.
  destruct (check_loop self net (Z.to_nat (num_checks self)) 0 GENERAL_ERROR st)
    as [[status [u|e]] st']; cbn [fst snd] in *.
  - intros [= H]. contradiction.
  - destruct (is_CheckBuildException e) eqn:He.
    + intros _. exact (Hce e eq_refl He).
    + intros [= H]. contradiction.
Qed.

Lemma check_error_only_after_three_failures_witness :
  (calls initial + 3
   <= calls (snd (determine_build_quality (sample_config 1 1)
                    (always (respond 503 Malformed)) initial)))%nat.
Proof.
  exact (proj1 (check_error_only_after_three_failures (sample_config 1 1)
                  (always (respond 503 Malformed)) initial eq_refl)).
Defined.

Lemma sleeps_after_request
    (self : CheckBuildStatus) (st : state) (evs : list event) :
  sleeps (trace (after_request self st evs)) = sleeps (trace st) ++ sleeps evs.
Proof. cbn [trace after_request]. now rewrite sleeps_app. Qed.

(** X21: a fetch sleeps 3 seconds after every attempt that is answered
    with a status other than 200 and at no other time: [k] sleeps when the
    first [k] attempts are answered so and, if [k < 3], the next one with
    status 200; so three sleeps when all three attempts fail, the last of
    them before the exception is raised. *)
Theorem fetch_sleeps_after_each_failed_attempt
    (self : CheckBuildStatus) (net : nat -> http_outcome) (st : state)
    (k : nat) (b : body) :
  (k <= 3)%nat ->
  (forall j, (j < k)%nat ->
     exists r, net (calls st + j)%nat = Responds r /\ status_code r <> 200) ->
  ((k < 3)%nat -> net (calls st + k)%nat = respond 200 b) ->
  sleeps (trace (snd (get_version_json_data self net st)))
  = sleeps (trace st) ++ repeat 3 k.
Proof.
  intros Hk Hpre H200. rewrite get_version_json_data_unfold.
  destruct k as [|k].
  { specialize (H200 ltac:(lia)). rewrite Nat.add_0_r in H200.
    rewrite (request_loop_200 _ _ _ _ _ _ H200 eq_refl).
    cbn [status_code negb Z.eqb Pos.eqb snd].
    rewrite sleeps_after_request. reflexivity. }
  destruct (Hpre 0%nat ltac:(lia)) as (r0 & H0 & Hs0).
  rewrite Nat.add_0_r in H0.
  rewrite (request_loop_not_200 _ _ _ _ _ _ H0 Hs0).
  set (s1 := after_request self st _).
  assert (E1 : sleeps (trace s1) = sleeps (trace st) ++ [3])
    by (unfold s1; now rewrite sleeps_after_request).
  destruct k as [|k].
  { specialize (H200 ltac:(lia)). rewrite Nat.add_1_r in H200.
    rewrite (request_loop_200 self net _ _ s1 _ H200 eq_refl).
    cbn [status_code negb Z.eqb Pos.eqb snd].
    rewrite sleeps_after_request, E1, <- app_assoc. reflexivity. }
  destruct (Hpre 1%nat ltac:(lia)) as (r1 & H1 & Hs1).
  rewrite Nat.add_1_r in H1.
  rewrite (request_loop_not_200 self net _ _ s1 _ H1 Hs1).
  set (s2 := after_request self s1 _).
  assert (E2 : sleeps (trace s2) = sleeps (trace st) ++ [3; 3])
    by (unfold s2; now rewrite sleeps_after_request, E1, <- app_assoc).
  destruct k as [|k].
  { specialize (H200 ltac:(lia)).
    replace (calls st + 2)%nat with (S (S (calls st))) in H200 by lia.
    rewrite (request_loop_200 self net _ _ s2 _ H200 eq_refl).
    cbn [status_code negb Z.eqb Pos.eqb snd].
    rewrite sleeps_after_request, E2, <- app_assoc. reflexivity. }
  destruct k as [|k]; [|lia].
  destruct (Hpre 2%nat ltac:(lia)) as (r2 & H2 & Hs2).
  replace (calls st + 2)%nat with (S (S (calls st))) in H2 by lia.
  rewrite (request_loop_not_200 self net _ _ s2 _ H2 Hs2).
  cbn [request_loop ret].
  destruct (negb (status_code r2 =? 200)); cbn [snd];
    rewrite sleeps_after_request, E2, <- app_assoc; reflexivity.
Qed.

Lemma fetch_sleeps_after_each_failed_attempt_witness :
  sleeps (trace (snd (get_version_json_data (sample_config 1 1)
                        (always (respond 503 Malformed)) initial)))
  = [3; 3; 3].
Proof.
  apply (fetch_sleeps_after_each_failed_attempt (sample_config 1 1)
           (always (respond 503 Malformed)) initial 3 Malformed).
  - lia.
  - intros j Hj. exists {| status_code := 503; text := Malformed |}.
    split; [reflexivity | simpl; lia].
  - lia.
Defined.

(** X22: a [check_seconds] beyond [sleep_max] passes [validate_input], but
    [time.sleep] refuses it with [OverflowError]: when the first check is
    answered with status 200 and finds nothing, the run ends there, however
    many checks were asked for.  One request has been made, nothing was
    slept, 'General Error' is logged, and the result is SUCCESS, the status
    the first check left. *)
Theorem oversized_check_seconds_end_the_run
    (self : CheckBuildStatus) (net : nat -> http_outcome) (st : state)
    (b : body) :
  1 <= num_checks self ->
  sleep_max < check_seconds self ->
  net (calls st) = respond 200 b ->
  check_of_body self b = Ok SUCCESS ->
  (forall U, validate_input U sample_token (py "1a2b3c") (py "production")
               0 (num_checks self) (check_seconds self) = Ok tt)
  /\ fst (determine_build_quality self net st) = Ok SUCCESS
  /\ calls (snd (determine_build_quality self net st)) = S (calls st)
  /\ sleeps (trace (snd (determine_build_quality self net st)))
     = sleeps (trace st)
  /\ In (LogError "General Error")
        (trace (snd (determine_build_quality self net st))).
Proof.
  intros Hn Hcs Hnet Hb. split.
  { intros U. unfold sleep_max in Hcs.
    assert (E1 : (num_checks self <? 1) = false) by (apply Z.ltb_ge; lia).
    assert (E2 : (check_seconds self <? 1) = false) by (apply Z.ltb_ge; lia).
    unfold validate_input. rewrite E1, E2. reflexivity. }
  unfold determine_build_quality.
  destruct (Z.to_nat (num_checks self)) as [|n] eqn:En; [lia|].
  cbn [check_loop].
  destruct (loop_turn_with_first_200 self net 0 st b Hnet)
    as (st1 & -> & Hc1 & Hs1).
  rewrite Hb. cbn [Z.eqb SUCCESS]. unfold sleep.
  destruct (Z.ltb_spec (check_seconds self) 0);
    [unfold sleep_max in Hcs; lia|].
  destruct (Z.ltb_spec sleep_max (check_seconds self)); [|lia].
  cbn [raise is_CheckBuildException bind emit ret fst snd calls trace].
  repeat split; [exact Hc1 | |].
  - rewrite sleeps_app, Hs1. cbn. now rewrite app_nil_r.
  - apply in_or_app. right. now left.
Qed.

Lemma oversized_check_seconds_end_the_run_witness :
  fst (determine_build_quality (sample_config 3 9223372037)
         (always (respond 200 (Document (stats_document 0 0)))) initial)
  = Ok SUCCESS
  /\ calls (snd (determine_build_quality (sample_config 3 9223372037)
                   (always (respond 200 (Document (stats_document 0 0))))
                   initial)) = 1%nat.
Proof.
  destruct (oversized_check_seconds_end_the_run (sample_config 3 9223372037)
              (always (respond 200 (Document (stats_document 0 0)))) initial
              (Document (stats_document 0 0)))
    as (_ & H1 & H2 & _).
  - simpl; lia.
  - unfold sleep_max; simpl; lia.
  - reflexivity.
  - reflexivity.
  - now split.
Defined.
